(** * radosgw_exporter: the collector of [radosgw_exporter.py], embedded

    The collector polls the RADOS gateway's admin API, merges usage
    entries into per-(owner, bucket, category) counters, normalises
    bucket statistics, evaluates user quotas and fills thirteen
    Prometheus metric families that [collect] hands to the scraper.

    The embedding follows the statements of the Python source.
    - Values that come out of [response.json()] are [json] terms.  JSON
      numbers are integers (the admin API reports counts and sizes as
      integers); JSON reals are outside the input domain of the model.
    - Operators are those of Python 3, which the source is written for
      (it wraps [keys()] and [values()] in [list(...)] and decodes
      [response.content] before it prints it): [/] on integers is true
      division and yields a float, ordering an integer against a string or
      [None] raises [TypeError].
    - A method of the collector is a function from the collector's state to
      an outcome and the state it leaves; an exception keeps the mutations
      made before it was raised, as in Python.
    - The gateway, the clock and [str()] on values that are not strings are
      the environment. *)

From Stdlib Require Import List String Ascii ZArith QArith Qround Bool Lia Permutation.
Import ListNotations.
Local Open Scope string_scope.
Local Open Scope Z_scope.
Local Open Scope list_scope.

Set Implicit Arguments.
Set Warnings "-register-all".

(** ** Python values *)

(** What [json.loads] builds.  [JDict] lists the items of a dict in
    insertion order; a lookup takes the first item with the key. *)
Inductive json : Type :=
| JNull
| JBool (b : bool)
| JInt (z : Z)
| JStr (s : string)
| JList (l : list json)
| JDict (d : list (string * json)).

(** A sample value handed to [add_metric]: a value taken from the gateway's
    answer as it is, or a float computed by the collector.  [VFloat q]
    stands for the binary64 number nearest to the rational [q]; the
    rounding itself is not modelled. *)
Inductive value : Type :=
| VJson (v : json)
| VFloat (q : Q).

(** The exceptions the modelled statements can raise. *)
Inductive exn : Type :=
| KeyError (key : string)
| TypeError
| UnboundLocalError (name : string)
| AttributeError (name : string)
| ZeroDivisionError
| OverflowError
| UnicodeDecodeError
| ValueError.

Inductive outcome (A : Type) : Type :=
| Val (a : A)
| Exc (e : exn).
Arguments Val {A} a.
Arguments Exc {A} e.

Definition obind {A B} (o : outcome A) (k : A -> outcome B) : outcome B :=
  match o with
  | Val a => k a
  | Exc e => Exc e
  end.

(** *** Dictionaries of the answer *)

Fixpoint lookup (k : string) (d : list (string * json)) : option json :=
  match d with
  | [] => None
  | (k', v) :: d' => if String.eqb k k' then Some v else lookup k d'
  end.

Definition has_key (k : string) (d : list (string * json)) : bool :=
  match lookup k d with Some _ => true | None => false end.

(** *** Operators *)

(** [bool(v)], the test of an [if v:]. *)
Definition py_truthy (v : json) : bool :=
  match v with
  | JNull => false
  | JBool b => b
  | JInt z => negb (z =? 0)
  | JStr s => negb (String.eqb s EmptyString)
  | JList l => match l with [] => false | _ => true end
  | JDict d => match d with [] => false | _ => true end
  end.

(** [type(v) is dict]. *)
Definition is_dict (v : json) : bool :=
  match v with JDict _ => true | _ => false end.

(** [v is not None]. *)
Definition is_not_None (v : json) : bool :=
  match v with JNull => false | _ => true end.

(** [v[k]] for a string literal [k]. *)
Definition py_getitem (v : json) (k : string) : outcome json :=
  match v with
  | JDict d => match lookup k d with Some x => Val x | None => Exc (KeyError k) end
  | _ => Exc TypeError
  end.

Definition is_str (s : string) (v : json) : bool :=
  match v with JStr s' => String.eqb s s' | _ => false end.

Fixpoint substringb (needle hay : string) : bool :=
  String.prefix needle hay
  || match hay with
     | EmptyString => false
     | String _ hay' => substringb needle hay'
     end.

(** [k in v] for a string literal [k]: a key of a dict, an element of a
    list, a substring of a string; the other values are not iterable. *)
Definition py_in (k : string) (v : json) : outcome bool :=
  match v with
  | JDict d => Val (has_key k d)
  | JList l => Val (existsb (is_str k) l)
  | JStr s => Val (substringb k s)
  | _ => Exc TypeError
  end.

Fixpoint chars (s : string) : list json :=
  match s with
  | EmptyString => []
  | String c s' => JStr (String c EmptyString) :: chars s'
  end.

(** The items a [for x in v:] visits. *)
Definition py_iter (v : json) : outcome (list json) :=
  match v with
  | JList l => Val l
  | JDict d => Val (map (fun kv => JStr (fst kv)) d)
  | JStr s => Val (chars s)
  | _ => Exc TypeError
  end.

(** The integer behind an [int] or a [bool]. *)
Definition as_int (v : json) : option Z :=
  match v with
  | JInt z => Some z
  | JBool b => Some (if b then 1 else 0)
  | _ => None
  end.

Fixpoint repeat_string (n : nat) (s : string) : string :=
  match n with
  | O => EmptyString
  | S n' => String.append s (repeat_string n' s)
  end.

(** [v * n] for a positive integer literal [n]. *)
Definition py_mul (v : json) (n : Z) : outcome json :=
  match v with
  | JInt z => Val (JInt (z * n))
  | JBool b => Val (JInt ((if b then 1 else 0) * n))
  | JStr s => Val (JStr (repeat_string (Z.to_nat n) s))
  | JList l => Val (JList (List.concat (List.repeat l (Z.to_nat n))))
  | _ => Exc TypeError
  end.

(** [a + b]. *)
Definition py_add (a b : json) : outcome json :=
  match as_int a, as_int b with
  | Some x, Some y => Val (JInt (x + y))
  | _, _ =>
      match a, b with
      | JStr x, JStr y => Val (JStr (String.append x y))
      | JList x, JList y => Val (JList (x ++ y))
      | _, _ => Exc TypeError
      end
  end.

(** [v > 0]. *)
Definition py_gt0 (v : json) : outcome bool :=
  match as_int v with
  | Some z => Val (0 <? z)
  | None => Exc TypeError
  end.

(** The least magnitude that rounds to a binary64 beyond the largest finite
    one. *)
Definition float_limit : Z := 2 ^ 1024 - 2 ^ 970.

(** [a / b], true division of integers. *)
Definition py_truediv (a b : json) : outcome value :=
  match as_int a, as_int b with
  | Some x, Some y =>
      if y =? 0 then Exc ZeroDivisionError
      else if float_limit * Z.abs y <=? Z.abs x then Exc OverflowError
      else Val (VFloat (Qdiv (inject_Z x) (inject_Z y)))
  | _, _ => Exc TypeError
  end.

(** *** Dictionary keys

    A key of a Python dict is a hashable value; [True] and [1], [False]
    and [0] are one key.  Lists and dicts are not hashable. *)
Inductive key : Type :=
| KNone
| KInt (z : Z)
| KStr (s : string).

Definition as_key (v : json) : outcome key :=
  match v with
  | JNull => Val KNone
  | JBool b => Val (KInt (if b then 1 else 0))
  | JInt z => Val (KInt z)
  | JStr s => Val (KStr s)
  | _ => Exc TypeError
  end.

Definition json_of_key (k : key) : json :=
  match k with
  | KNone => JNull
  | KInt z => JInt z
  | KStr s => JStr s
  end.

Definition key_eqb (a b : key) : bool :=
  match a, b with
  | KNone, KNone => true
  | KInt x, KInt y => x =? y
  | KStr x, KStr y => String.eqb x y
  | _, _ => false
  end.

(** ** The metric families *)

(** The keys of [_prometheus_metrics], in the order in which
    [_setup_empty_prometheus_metrics] writes them. *)
Inductive family : Type :=
| ops
| successful_ops
| bytes_sent
| bytes_received
| bucket_usage_bytes
| bucket_utilized_bytes
| bucket_usage_objects
| scrape_duration_seconds
| bucket_quota_bytes
| bucket_quota_max_objects
| user_quota_utilized
| user_quota_limit
| user_quota_used.

Definition families : list family :=
  [ops; successful_ops; bytes_sent; bytes_received; bucket_usage_bytes;
   bucket_utilized_bytes; bucket_usage_objects; scrape_duration_seconds;
   bucket_quota_bytes; bucket_quota_max_objects; user_quota_utilized;
   user_quota_limit; user_quota_used].

Definition family_eqb (f g : family) : bool :=
  match f, g with
  | ops, ops | successful_ops, successful_ops | bytes_sent, bytes_sent
  | bytes_received, bytes_received | bucket_usage_bytes, bucket_usage_bytes
  | bucket_utilized_bytes, bucket_utilized_bytes
  | bucket_usage_objects, bucket_usage_objects
  | scrape_duration_seconds, scrape_duration_seconds
  | bucket_quota_bytes, bucket_quota_bytes
  | bucket_quota_max_objects, bucket_quota_max_objects
  | user_quota_utilized, user_quota_utilized
  | user_quota_limit, user_quota_limit
  | user_quota_used, user_quota_used => true
  | _, _ => false
  end.

(** One [add_metric(labels, value)]. *)
Record sample : Type := Sample { labels : list json; sample_value : value }.

(** The dict of metric families, kept as the sequence of its [add_metric]
    calls since it was set up; the samples of one family are the calls on
    that family, in order. *)
Definition metrics : Type := list (family * sample).

Definition samples_of (f : family) (m : metrics) : list sample :=
  map snd (filter (fun fs => family_eqb f (fst fs)) m).

(** ** The usage dictionary *)

(** A [Counter]: its items in insertion order. *)
Definition Counter : Type := list (string * json).

(** [c[name]]: a missing key counts zero. *)
Definition counter_get (c : Counter) (name : string) : json :=
  match lookup name c with Some v => v | None => JInt 0 end.

Fixpoint counter_set (c : Counter) (name : string) (v : json) : Counter :=
  match c with
  | [] => [(name, v)]
  | (n, x) :: c' =>
      if String.eqb name n then (n, v) :: c' else (n, x) :: counter_set c' name v
  end.

(** [c.update(new)] for a mapping [new]: an empty counter takes the items
    as they are, another one adds item by item, [count + c.get(elem, 0)].
    The counter is returned as far as it got when an addition raises. *)
Fixpoint counter_add (c : Counter) (new : list (string * json)) : Counter * outcome unit :=
  match new with
  | [] => (c, Val tt)
  | (elem, count) :: new' =>
      match py_add count (counter_get c elem) with
      | Val v => counter_add (counter_set c elem v) new'
      | Exc e => (c, Exc e)
      end
  end.

Definition counter_update (c : Counter) (new : list (string * json)) : Counter * outcome unit :=
  match c with
  | [] => (new, Val tt)
  | _ => counter_add c new
  end.

(** A dict with hashable keys, in insertion order. *)
Definition dict (V : Type) : Type := list (key * V).

Fixpoint dict_get {V} (k : key) (d : dict V) : option V :=
  match d with
  | [] => None
  | (k', v) :: d' => if key_eqb k k' then Some v else dict_get k d'
  end.

(** [d[k] = v]: an existing key keeps its place. *)
Fixpoint dict_set {V} (k : key) (v : V) (d : dict V) : dict V :=
  match d with
  | [] => [(k, v)]
  | (k', v') :: d' =>
      if key_eqb k k' then (k', v) :: d' else (k', v') :: dict_set k v d'
  end.

Definition dict_mem {V} (k : key) (d : dict V) : bool :=
  match dict_get k d with Some _ => true | None => false end.

(** [usage_dict]: owner, then bucket, then category. *)
Definition usage_dict_t : Type := dict (dict (dict Counter)).

(** ** The collector and its environment *)

(** A line written by [print]. *)
Inductive output : Type :=
| RequestErrorStatus (status_code : Z) (body : string)
| RequestError (message : string)
| DebugResponse (status_code : Z)
| DebugJson (v : json).

(** The attributes of a [RADOSGWCollector].  [_prometheus_metrics] does not
    exist before the first cycle sets it.  [published] is not an attribute:
    it records, write after write, every value of [_prometheus_metrics] that
    a concurrent [collect] could have met. *)
Record collector : Type := Collector {
  host : string;
  url : string;
  interval : Z;
  _prometheus_metrics : option metrics;
  usage_dict : usage_dict_t;
  stdout : list output;
  published : list metrics
}.

(** What [response.json()] gives. *)
Inductive json_body : Type :=
| Parsed (v : json)
| Malformed.

(** A [requests.Response]: the status code, [content.decode('utf-8')]
    ([None] for bytes that are not UTF-8) and the result of [json()]. *)
Record response : Type := Response {
  status_code : Z;
  content_utf8 : option string;
  json_of : json_body
}.

(** [requests.get]: a response, or a [RequestException] (DNS, connection,
    timeout). *)
Inductive http_result : Type :=
| GetReturns (r : response)
| GetRaises (message : string).

Record environment : Type := Environment {
  requests_get : string -> http_result;
  (** whether the error of [json()] is a [RequestException], as it is from
      requests 2.27 on; before, it is a [ValueError] *)
  json_error_is_request_exception : bool;
  (** [str(v)] for a value that is not a string *)
  str_of : json -> string;
  (** the two readings of [time.time()] in a cycle *)
  time_start : Q;
  time_end : Q;
  (** the module's [DEBUG] *)
  DEBUG : bool
}.

(** [str(v)], also what [format] substitutes for [{0}]. *)
Definition py_str (env : environment) (v : json) : string :=
  match v with
  | JStr s => s
  | _ => str_of env v
  end.

(** ** Methods as state transformers *)

Definition M (A : Type) : Type := collector -> outcome A * collector.

Definition ret {A} (a : A) : M A := fun st => (Val a, st).

Definition raise {A} (e : exn) : M A := fun st => (Exc e, st).

Definition bind {A B} (m : M A) (k : A -> M B) : M B :=
  fun st =>
    match m st with
    | (Val a, st') => k a st'
    | (Exc e, st') => (Exc e, st')
    end.

Definition lift {A} (o : outcome A) : M A := fun st => (o, st).

Declare Scope py_scope.
Delimit Scope py_scope with py.
Notation "x <- m ;; k" := (bind m (fun x => k))
  (at level 61, m at next level, right associativity) : py_scope.
Notation "m ;; k" := (bind m (fun _ => k))
  (at level 61, right associativity) : py_scope.
Local Open Scope py_scope.

Fixpoint for_each {A} (l : list A) (body : A -> M unit) : M unit :=
  match l with
  | [] => ret tt
  | x :: l' => body x ;; for_each l' body
  end.

Definition when (b : bool) (m : M unit) : M unit :=
  if b then m else ret tt.

Definition print (o : output) : M unit :=
  fun st =>
    (Val tt,
     Collector (host st) (url st) (interval st) (_prometheus_metrics st)
               (usage_dict st) (stdout st ++ [o]) (published st)).

Definition get_usage_dict : M usage_dict_t := fun st => (Val (usage_dict st), st).

Definition set_usage_dict (d : usage_dict_t) : M unit :=
  fun st =>
    (Val tt,
     Collector (host st) (url st) (interval st) (_prometheus_metrics st)
               d (stdout st) (published st)).

(** Binding [self._prometheus_metrics] to [m]. *)
Definition set_metrics (m : metrics) : M unit :=
  fun st =>
    (Val tt,
     Collector (host st) (url st) (interval st) (Some m)
               (usage_dict st) (stdout st) (published st ++ [m])).

(** [self._prometheus_metrics[f].add_metric(labels, v)]. *)
Definition add_metric (f : family) (labels : list json) (v : value) : M unit :=
  fun st =>
    match _prometheus_metrics st with
    | Some m => set_metrics (m ++ [(f, Sample labels v)]) st
    | None => (Exc (AttributeError "_prometheus_metrics"), st)
    end.

(** ** The methods of [RADOSGWCollector] *)

Definition startswith (s prefix : string) : bool := String.prefix prefix s.

Definition endswith (s suffix : string) : bool :=
  (String.length suffix <=? String.length s)%nat
  && String.eqb
       (String.substring (String.length s - String.length suffix)
                         (String.length suffix) s)
       suffix.

(** [__init__], without the start of the scraping thread. *)
Definition __init__ (host0 admin_entry : string) (interval0 : Z) : collector :=
  let host1 :=
    if negb (startswith host0 "http") && negb (startswith host0 "https")
    then String.append "http://" host0 else host0 in
  let host2 :=
    if negb (endswith host1 "/") then String.append host1 "/" else host1 in
  Collector host2 (String.append host2 (String.append admin_entry "/"))
            interval0 None [] [] [].

(** The URL of a request: ["{0}{1}/?format=json{2}"]. *)
Definition request_target (base query : string) (args : option string) : string :=
  let args_str :=
    match args with
    | Some a => String.append "&" a
    | None => EmptyString
    end in
  String.append base
    (String.append query (String.append "/?format=json" args_str)).

(** [_request_data]: the parsed answer, or [None] after a printed line. *)
Definition _request_data (env : environment) (query : string)
    (args : option string) : M json :=
  fun st =>
    match requests_get env (request_target (url st) query args) with
    | GetReturns r =>
        if status_code r =? 200 then
          (when (DEBUG env) (print (DebugResponse (status_code r))) ;;
           match json_of r with
           | Parsed v => ret v
           | Malformed =>
               if json_error_is_request_exception env
               then print (RequestError "JSONDecodeError") ;; ret JNull
               else raise ValueError
           end) st
        else
          match content_utf8 r with
          | Some body =>
              (print (RequestErrorStatus (status_code r) body) ;; ret JNull) st
          | None => (Exc UnicodeDecodeError, st)
          end
    | GetRaises message => (print (RequestError message) ;; ret JNull) st
    end.

(** [_setup_empty_prometheus_metrics]: thirteen families with no sample. *)
Definition _setup_empty_prometheus_metrics : M unit := set_metrics [].

(** The value under [k], a dict or a counter.  The dicts of [usage_dict] are
    [defaultdict]s, but every read below follows a statement that has made
    the key present. *)
Definition at_key {V} (k : key) (d : dict (list V)) : list V :=
  match dict_get k d with
  | Some v => v
  | None => []
  end.

(** [v not in list(d.keys())]: no hashing; a value that is not hashable
    equals no key. *)
Definition not_in_keys {V} (v : json) (d : dict V) : bool :=
  match as_key v with
  | Val k => negb (dict_mem k d)
  | Exc _ => true
  end.

Definition keys {V} (d : dict V) : list key := map fst d.

(** Reading a local variable that the branches taken have not bound. *)
Definition read_local {A} (name : string) (v : option A) : outcome A :=
  match v with
  | Some a => Val a
  | None => Exc (UnboundLocalError name)
  end.

Definition set_counter (o b c : key) (cnt : Counter) (d : usage_dict_t) : usage_dict_t :=
  dict_set o (dict_set b (dict_set c cnt (at_key b (at_key o d))) (at_key o d)) d.

(** The body of [for category in bucket['categories']:], for the owner key
    [o] and the bucket name at hand. *)
Definition usage_category (o : key) (bucket_name : json) (category : json) : M unit :=
  category_name <- lift (py_getitem category "category") ;;
  bk <- lift (as_key bucket_name) ;;
  d <- get_usage_dict ;;
  when (not_in_keys category_name (at_key bk (at_key o d)))
    (ck <- lift (as_key category_name) ;;
     set_usage_dict (set_counter o bk ck [] d)) ;;
  ck <- lift (as_key category_name) ;;
  v_ops <- lift (py_getitem category "ops") ;;
  v_successful_ops <- lift (py_getitem category "successful_ops") ;;
  v_bytes_sent <- lift (py_getitem category "bytes_sent") ;;
  v_bytes_received <- lift (py_getitem category "bytes_received") ;;
  d <- get_usage_dict ;;
  let c := at_key ck (at_key bk (at_key o d)) in
  let (c', r) :=
    counter_update c
      [("ops", v_ops); ("successful_ops", v_successful_ops);
       ("bytes_sent", v_bytes_sent); ("bytes_received", v_bytes_received)] in
  set_usage_dict (set_counter o bk ck c' d) ;;
  lift r.

(** The body of [for bucket in entry['buckets']:]. *)
Definition usage_bucket (env : environment) (bucket_owner : json) (bucket : json) : M unit :=
  when (DEBUG env) (print (DebugJson bucket)) ;;
  b <- lift (py_getitem bucket "bucket") ;;
  let bucket_name := if negb (py_truthy b) then JStr "bucket_root" else b in
  o <- lift (as_key bucket_owner) ;;
  d <- get_usage_dict ;;
  when (not_in_keys bucket_name (at_key o d))
    (bk <- lift (as_key bucket_name) ;;
     set_usage_dict (dict_set o (dict_set bk [] (at_key o d)) d)) ;;
  categories <- lift (obind (py_getitem bucket "categories") py_iter) ;;
  for_each categories (usage_category o bucket_name).

(** [_get_usage]. *)
Definition _get_usage (env : environment) (entry : json) : M unit :=
  has_owner <- lift (py_in "owner" entry) ;;
  local <-
    (if has_owner : bool then
       v <- lift (py_getitem entry "owner") ;; ret (Some v)
     else
       has_user <- lift (py_in "user" entry) ;;
       if has_user : bool then
         v <- lift (py_getitem entry "user") ;; ret (Some v)
       else ret None) ;;
  bucket_owner <- lift (read_local "bucket_owner" local) ;;
  d <- get_usage_dict ;;
  when (not_in_keys bucket_owner d)
    (o <- lift (as_key bucket_owner) ;; set_usage_dict (dict_set o [] d)) ;;
  buckets <- lift (obind (py_getitem entry "buckets") py_iter) ;;
  for_each buckets (usage_bucket env bucket_owner).

(** [_update_usage_metrics]. *)
Definition _update_usage_metrics : M unit :=
  d <- get_usage_dict ;;
  for_each (keys d) (fun bucket_owner =>
    for_each (keys (at_key bucket_owner d)) (fun bucket_name =>
      for_each (keys (at_key bucket_name (at_key bucket_owner d))) (fun category =>
        let data_dict := at_key category (at_key bucket_name (at_key bucket_owner d)) in
        let l := [json_of_key bucket_name; json_of_key bucket_owner;
                  json_of_key category] in
        add_metric ops l (VJson (counter_get data_dict "ops")) ;;
        add_metric successful_ops l (VJson (counter_get data_dict "successful_ops")) ;;
        add_metric bytes_sent l (VJson (counter_get data_dict "bytes_sent")) ;;
        add_metric bytes_received l (VJson (counter_get data_dict "bytes_received"))))).

(** The locals of [_get_bucket_usage] before its five [add_metric] calls. *)
Record bucket_locals : Type := BucketLocals {
  bucket_name : json;
  bucket_owner : json;
  bucket_zonegroup : json;
  local_usage_bytes : json;
  local_utilized_bytes : json;
  local_usage_objects : json;
  local_quota_bytes : json;
  local_quota_max_objects : json
}.

(** The statements under [if bucket['usage']:], with the test: the usage,
    utilized and object figures of the [rgw.main] record. *)
Definition usage_block (usage : json) : outcome (json * json * json) :=
  if py_truthy usage then
    obind (py_getitem usage "rgw.main") (fun main =>
    obind (py_in "size_actual" main) (fun has_size_actual =>
    obind
      (if has_size_actual : bool then py_getitem main "size_actual"
       else
         obind (py_in "size_kb_actual" main) (fun has_size_kb_actual =>
         if has_size_kb_actual : bool then
           obind (py_getitem main "size_kb_actual") (fun usage_kb =>
           py_mul usage_kb 1024)
         else Val (JInt 0))) (fun usage_bytes =>
    obind (py_in "size_utilized" main) (fun has_size_utilized =>
    obind
      (if has_size_utilized : bool then py_getitem main "size_utilized"
       else Val (JInt 0)) (fun utilized_bytes =>
    obind (py_in "num_objects" main) (fun has_num_objects =>
    obind
      (if has_num_objects : bool then py_getitem main "num_objects"
       else Val (JInt 0)) (fun usage_objects =>
    Val (usage_bytes, utilized_bytes, usage_objects))))))))
  else Val (JInt 0, JInt 0, JInt 0).

(** [if 'zonegroup' in bucket: ... else: ...]. *)
Definition zonegroup_block (bucket : json) : outcome json :=
  obind (py_in "zonegroup" bucket) (fun has_zonegroup =>
  if has_zonegroup : bool then py_getitem bucket "zonegroup"
  else Val (JStr "0")).

(** [if 'bucket_quota' in bucket: ...]: the quota bytes and objects. *)
Definition quota_block (bucket : json) : outcome (json * json) :=
  obind (py_in "bucket_quota" bucket) (fun has_bucket_quota =>
  if has_bucket_quota : bool then
    obind (py_getitem bucket "bucket_quota") (fun quota =>
    obind (py_in "max_size" quota) (fun has_max_size =>
    obind
      (if has_max_size : bool then py_getitem quota "max_size"
       else Val (JInt 0)) (fun quota_bytes =>
    obind (py_in "max_objects" quota) (fun has_max_objects =>
    obind
      (if has_max_objects : bool then py_getitem quota "max_objects"
       else Val (JInt 0)) (fun quota_max_objects =>
    Val (quota_bytes, quota_max_objects))))))
  else Val (JInt 0, JInt 0)).

(** The statements of [_get_bucket_usage] for a dict, up to the first
    [add_metric]; they read the record only. *)
Definition bucket_fields (bucket : json) : outcome bucket_locals :=
  obind (py_getitem bucket "bucket") (fun name =>
  obind (py_getitem bucket "owner") (fun owner =>
  obind (py_getitem bucket "usage") (fun usage =>
  obind (usage_block usage) (fun '(usage_bytes, utilized_bytes, usage_objects) =>
  obind (zonegroup_block bucket) (fun zonegroup =>
  obind (quota_block bucket) (fun '(quota_bytes, quota_max_objects) =>
  Val (BucketLocals name owner zonegroup usage_bytes utilized_bytes
                    usage_objects quota_bytes quota_max_objects))))))).

(** [_get_bucket_usage]. *)
Definition _get_bucket_usage (env : environment) (bucket : json) : M unit :=
  when (DEBUG env) (print (DebugJson bucket)) ;;
  if is_dict bucket then
    b <- lift (bucket_fields bucket) ;;
    let l := [bucket_name b; bucket_owner b; bucket_zonegroup b] in
    add_metric bucket_usage_bytes l (VJson (local_usage_bytes b)) ;;
    add_metric bucket_utilized_bytes l (VJson (local_utilized_bytes b)) ;;
    add_metric bucket_usage_objects l (VJson (local_usage_objects b)) ;;
    add_metric bucket_quota_bytes l (VJson (local_quota_bytes b)) ;;
    add_metric bucket_quota_max_objects l (VJson (local_quota_max_objects b))
  else ret tt.

(** [_get_users_ids]. *)
Definition _get_users_ids (env : environment) : M json :=
  _request_data env "metadata/user" None.

(** [_get_quota_by_project]. *)
Definition _get_quota_by_project (env : environment) (project : json) : M json :=
  let args :=
    String.append "quota&uid="
      (String.append (py_str env project) "&quota-type=user") in
  quota <- _request_data env "user" (Some args) ;;
  lift (py_getitem quota "max_size").

(** [_get_user_info]. *)
Definition _get_user_info (env : environment) (project : json) : M json :=
  let args := String.append "stats=True&uid=" (py_str env project) in
  _request_data env "user" (Some args).

(** [_get_user_quota]. *)
Definition _get_user_quota (env : environment) (project : json) : M unit :=
  project_quota <- _get_quota_by_project env project ;;
  positive <- lift (py_gt0 project_quota) ;;
  if positive : bool then
    user <- _get_user_info env project ;;
    if is_not_None user then
      project_name <- lift (py_getitem user "display_name") ;;
      project_id <- lift (py_getitem user "user_id") ;;
      used_size <- lift (obind (py_getitem user "stats") (fun stats =>
                               py_getitem stats "size_actual")) ;;
      used_size_percent <- lift (obind (py_mul used_size 100) (fun n =>
                                       py_truediv n project_quota)) ;;
      let l := [JStr (py_str env project_name); JStr (py_str env project_id)] in
      add_metric user_quota_utilized l used_size_percent ;;
      add_metric user_quota_limit l (VJson project_quota) ;;
      add_metric user_quota_used l (VJson used_size)
    else ret tt
  else ret tt.

(** The statements of [_scrape_metrics] that follow the set-up of the
    metrics. *)
Definition scrape_after_setup (env : environment) : M unit :=
  set_usage_dict [] ;;
  rgw_usage <- _request_data env "usage" (Some "show-summary=False") ;;
  rgw_bucket <- _request_data env "bucket" (Some "stats=True") ;;
  rgw_users <- _get_users_ids env ;;
  when (py_truthy rgw_usage)
    (entries <- lift (obind (py_getitem rgw_usage "entries") py_iter) ;;
     for_each entries (_get_usage env) ;;
     _update_usage_metrics) ;;
  when (py_truthy rgw_bucket)
    (buckets <- lift (py_iter rgw_bucket) ;;
     for_each buckets (_get_bucket_usage env)) ;;
  when (py_truthy rgw_users)
    (users <- lift (py_iter rgw_users) ;;
     for_each users (_get_user_quota env)) ;;
  add_metric scrape_duration_seconds []
    (VFloat (Qminus (time_end env) (time_start env))).

(** [_scrape_metrics]: one poll cycle. *)
Definition _scrape_metrics (env : environment) : M unit :=
  _setup_empty_prometheus_metrics ;;
  scrape_after_setup env.

(** [_scrape_loop], for the cycles the thread gets to run: one environment
    per cycle.  An exception ends the thread. *)
Fixpoint _scrape_loop (cycles : list environment) : M unit :=
  match cycles with
  | [] => ret tt
  | env :: rest => _scrape_metrics env ;; _scrape_loop rest
  end.

(** The families of a metrics dict, each with the samples it holds. *)
Definition snapshot (m : metrics) : list (family * list sample) :=
  map (fun f => (f, samples_of f m)) families.

(** [collect]: the families as they are when the scraper asks.  The
    generator yields the family objects of the current dict themselves; a
    [collect] that is served between two statements of a cycle reads what
    the cycle has written so far. *)
Definition collect : M (list (family * list sample)) :=
  fun st =>
    match _prometheus_metrics st with
    | Some m => (Val (snapshot m), st)
    | None => (Exc (AttributeError "_prometheus_metrics"), st)
    end.

(** ** Views used by the statements *)

(** The samples a family holds in the collector's current metrics. *)
Definition samples (f : family) (st : collector) : list sample :=
  match _prometheus_metrics st with
  | Some m => samples_of f m
  | None => []
  end.

(** A gateway given by a table of URLs; any other URL is unreachable. *)
Fixpoint gateway (table : list (string * http_result)) (target : string) : http_result :=
  match table with
  | [] => GetRaises "connection refused"
  | (u, r) :: table' => if String.eqb target u then r else gateway table' target
  end.

(** A 200 answer with the given JSON value. *)
Definition ok_json (v : json) : http_result :=
  GetReturns (Response 200 (Some EmptyString) (Parsed v)).

(** The [rgw.main] record of a bucket's usage; no field at all for a usage
    that is empty. *)
Definition usage_main (d : list (string * json)) : option (list (string * json)) :=
  match lookup "usage" d with
  | Some usage =>
      if py_truthy usage then
        match usage with
        | JDict u =>
            match lookup "rgw.main" u with
            | Some (JDict main) => Some main
            | _ => None
            end
        | _ => None
        end
      else Some []
  | None => None
  end.

(** A bucket-stats record with its name, owner, usage and [rgw.main]
    records in place, a quota record or none, and an integer
    [size_kb_actual] where that field is the one consulted.  A value that is
    not a dict is skipped by the collector whatever it holds. *)
Definition wf_bucket_record (bucket : json) : bool :=
  match bucket with
  | JDict d =>
      has_key "bucket" d && has_key "owner" d
      && match usage_main d with
         | Some main =>
             has_key "size_actual" main
             || match lookup "size_kb_actual" main with
                | Some (JInt _) | None => true
                | Some _ => false
                end
         | None => false
         end
      && match lookup "bucket_quota" d with
         | Some (JDict _) | None => true
         | Some _ => false
         end
  | _ => true
  end.

(** What the locals of [_get_bucket_usage] are for a record in good shape. *)
Definition locals_of (d : list (string * json)) (name owner : json)
    (main : list (string * json)) : bucket_locals :=
  BucketLocals name owner
    (match lookup "zonegroup" d with Some z => z | None => JStr "0" end)
    (match lookup "size_actual" main with
     | Some v => v
     | None =>
         match lookup "size_kb_actual" main with
         | Some (JInt kb) => JInt (kb * 1024)
         | _ => JInt 0
         end
     end)
    (match lookup "size_utilized" main with Some v => v | None => JInt 0 end)
    (match lookup "num_objects" main with Some v => v | None => JInt 0 end)
    (match lookup "bucket_quota" d with
     | Some (JDict q) => match lookup "max_size" q with Some v => v | None => JInt 0 end
     | _ => JInt 0
     end)
    (match lookup "bucket_quota" d with
     | Some (JDict q) => match lookup "max_objects" q with Some v => v | None => JInt 0 end
     | _ => JInt 0
     end).

(** The five [add_metric] calls that end [_get_bucket_usage]. *)
Definition bucket_samples (b : bucket_locals) : metrics :=
  let l := [bucket_name b; bucket_owner b; bucket_zonegroup b] in
  [(bucket_usage_bytes, Sample l (VJson (local_usage_bytes b)));
   (bucket_utilized_bytes, Sample l (VJson (local_utilized_bytes b)));
   (bucket_usage_objects, Sample l (VJson (local_usage_objects b)));
   (bucket_quota_bytes, Sample l (VJson (local_quota_bytes b)));
   (bucket_quota_max_objects, Sample l (VJson (local_quota_max_objects b)))].

(** A bucket-stats record of a gateway that reports kilobytes only. *)
Definition hammer_bucket : json :=
  JDict [("bucket", JStr "b"); ("owner", JStr "o");
         ("usage", JDict [("rgw.main", JDict [("size_kb_actual", JInt 100)])])].

(** A bucket that holds unfinished multipart uploads only: its usage has an
    [rgw.multimeta] record and no [rgw.main] record. *)
Definition multimeta_bucket : json :=
  JDict [("bucket", JStr "b"); ("owner", JStr "o");
         ("usage", JDict [("rgw.multimeta",
                           JDict [("size_actual", JInt 0); ("num_objects", JInt 2)])])].

(** A record without a [usage] field. *)
Definition bare_bucket : json :=
  JDict [("bucket", JStr "b"); ("owner", JStr "o")].

(** A collector whose first cycle has set up its metrics. *)
Definition st_ready : collector :=
  snd (_setup_empty_prometheus_metrics (__init__ "http://rgw" "admin" 60)).

(** The attributes a request leaves alone. *)
Definition same_attributes (st st' : collector) : Prop :=
  host st' = host st /\ url st' = url st /\ interval st' = interval st
  /\ _prometheus_metrics st' = _prometheus_metrics st
  /\ usage_dict st' = usage_dict st /\ published st' = published st.

(** A user record as [user?stats=True] answers it. *)
Definition user_record (name id : string) (used : Z) : json :=
  JDict [("user_id", JStr id); ("display_name", JStr name);
         ("stats", JDict [("size", JInt used); ("size_actual", JInt used)])].

(** A gateway with one user, [alice], whose quota is [limit] bytes and who
    uses [used] bytes; its usage log is switched off. *)
Definition env_alice (limit used : Z) : environment :=
  Environment
    (gateway
       [("http://rgw/admin/metadata/user/?format=json", ok_json (JList [JStr "alice"]));
        ("http://rgw/admin/user/?format=json&quota&uid=alice&quota-type=user",
         ok_json (JDict [("enabled", JBool true); ("max_size", JInt limit);
                         ("max_objects", JInt (-1))]));
        ("http://rgw/admin/user/?format=json&stats=True&uid=alice",
         ok_json (user_record "Alice" "alice" used))])
    true (fun _ => EmptyString) 0 1 false.

(** A gateway that lists one user, [alice], answers the bucket statistics
    and refuses the connection for anything else: the usage log and both
    queries about [alice]. *)
Definition env_quota_down : environment :=
  Environment
    (gateway
       [("http://rgw/admin/metadata/user/?format=json", ok_json (JList [JStr "alice"]));
        ("http://rgw/admin/bucket/?format=json&stats=True",
         ok_json (JList [hammer_bucket]))])
    true (fun _ => EmptyString) 0 1 false.

(** ** The records of one cycle *)

(** A query that fails: the connection does, or the gateway rejects the
    request with a body that can be printed. *)
Definition fetch_fails (r : http_result) : bool :=
  match r with
  | GetRaises _ => true
  | GetReturns r =>
      negb (status_code r =? 200)
      && match content_utf8 r with Some _ => true | None => false end
  end.


Definition quota_target (env : environment) (base : string) (project : json) : string :=
  request_target base "user"
    (Some (String.append "quota&uid="
             (String.append (py_str env project) "&quota-type=user"))).

Definition info_target (env : environment) (base : string) (project : json) : string :=
  request_target base "user"
    (Some (String.append "stats=True&uid=" (py_str env project))).








(** Whether a family is one of the four usage counters. *)
Definition is_usage_family (f : family) : bool :=
  match f with
  | ops | successful_ops | bytes_sent | bytes_received => true
  | _ => false
  end.


(** The sample that closes a cycle. *)
Definition duration_sample (env : environment) : family * sample :=
  (scrape_duration_seconds,
   Sample [] (VFloat (Qminus (time_end env) (time_start env)))).

(** A gateway whose usage log is switched off: it answers the usage query
    with 403 and serves one bucket and the user [alice], who has a quota of
    1000 bytes and uses 250. *)
Definition env_no_usage_log : environment :=
  Environment
    (gateway
       [("http://rgw/admin/usage/?format=json&show-summary=False",
         GetReturns (Response 403 (Some "AccessDenied") Malformed));
        ("http://rgw/admin/bucket/?format=json&stats=True",
         ok_json (JList [hammer_bucket]));
        ("http://rgw/admin/metadata/user/?format=json", ok_json (JList [JStr "alice"]));
        ("http://rgw/admin/user/?format=json&quota&uid=alice&quota-type=user",
         ok_json (JDict [("enabled", JBool true); ("max_size", JInt 1000);
                         ("max_objects", JInt (-1))]));
        ("http://rgw/admin/user/?format=json&stats=True&uid=alice",
         ok_json (user_record "Alice" "alice" 250))])
    true (fun _ => EmptyString) 0 1 false.

(** ** The merged usage counters *)

(** The counter of an (owner, bucket, category) key; empty when the key is
    not there. *)
Definition counters (d : usage_dict_t) (o b c : key) : Counter :=
  at_key c (at_key b (at_key o d)).

Definition int_of (v : option json) : Z :=
  match v with
  | Some (JInt z) => z
  | _ => 0
  end.

(** The total that [usage_dict] holds for a key under one of the counter
    names; nothing counts zero. *)
Definition total (d : usage_dict_t) (o b c : key) (name : string) : Z :=
  int_of (lookup name (counters d o b c)).


(** [usage_dict] after a cycle has merged the entries, as [_scrape_metrics]
    does it: from an empty dict, entry after entry. *)
Definition merge_usage (env : environment) (entries : list json) (st : collector)
    : outcome unit * usage_dict_t :=
  let (r, st') := (set_usage_dict [] ;; for_each entries (_get_usage env)) st in
  (r, usage_dict st').














(** A usage entry of owner [alice]: 3 operations, all successful, on bucket
    [photos] in category [put_obj], and 1 on the bucket with the empty name. *)
Definition alice_entry : json :=
  JDict [("user", JStr "alice");
         ("buckets",
          JList [JDict [("bucket", JStr "photos");
                        ("categories",
                         JList [JDict [("category", JStr "put_obj");
                                       ("ops", JInt 3); ("successful_ops", JInt 3);
                                       ("bytes_sent", JInt 0);
                                       ("bytes_received", JInt 4096)]])];
                 JDict [("bucket", JStr EmptyString);
                        ("categories",
                         JList [JDict [("category", JStr "list_buckets");
                                       ("ops", JInt 1); ("successful_ops", JInt 1);
                                       ("bytes_sent", JInt 120);
                                       ("bytes_received", JInt 0)]])]])].

(** ** Reads during a cycle *)




(** A gateway with a usage log, one bucket and the user [alice]. *)
Definition env_full : environment :=
  Environment
    (gateway
       [("http://rgw/admin/usage/?format=json&show-summary=False",
         ok_json (JDict [("entries", JList [alice_entry])]));
        ("http://rgw/admin/bucket/?format=json&stats=True",
         ok_json (JList [hammer_bucket]));
        ("http://rgw/admin/metadata/user/?format=json", ok_json (JList [JStr "alice"]));
        ("http://rgw/admin/user/?format=json&quota&uid=alice&quota-type=user",
         ok_json (JDict [("enabled", JBool true); ("max_size", JInt 1000);
                         ("max_objects", JInt (-1))]));
        ("http://rgw/admin/user/?format=json&stats=True&uid=alice",
         ok_json (user_record "Alice" "alice" 250))])
    true (fun _ => EmptyString) 0 1 false.


(** ** Further views of the collector *)

(** Two collectors that a method cannot tell apart: the same admin URL,
    metrics and usage dictionary.  What they have printed and the history
    of their metrics may differ. *)
Definition agree (st1 st2 : collector) : Prop :=
  url st1 = url st2
  /\ _prometheus_metrics st1 = _prometheus_metrics st2
  /\ usage_dict st1 = usage_dict st2.

(** A method whose outcome, metrics and usage dictionary depend on nothing
    but the admin URL, the metrics and the usage dictionary it starts
    with, and which leaves the admin URL alone. *)
Definition respects {A} (m : M A) : Prop :=
  (forall st, url (snd (m st)) = url st)
  /\ forall st1 st2,
       agree st1 st2 ->
       fst (m st1) = fst (m st2) /\ agree (snd (m st1)) (snd (m st2)).

(** A method that, on set-up metrics, only adds samples of the families
    [P], whether it returns or raises. *)
Definition adds_families {A} (P : family -> bool) (m : M A) : Prop :=
  forall st m0,
    _prometheus_metrics st = Some m0 ->
    exists adds,
      _prometheus_metrics (snd (m st)) = Some (m0 ++ adds)
      /\ forallb (fun fs => P (fst fs)) adds = true.

Definition is_bucket_family (f : family) : bool :=
  match f with
  | bucket_usage_bytes | bucket_utilized_bytes | bucket_usage_objects
  | bucket_quota_bytes | bucket_quota_max_objects => true
  | _ => false
  end.

Definition is_quota_family (f : family) : bool :=
  match f with
  | user_quota_utilized | user_quota_limit | user_quota_used => true
  | _ => false
  end.

Definition no_family (f : family) : bool := false.

(** The statement [if rgw_usage: ...] of [_scrape_metrics]. *)
Definition usage_phase (env : environment) (rgw_usage : json) : M unit :=
  when (py_truthy rgw_usage)
    (entries <- lift (obind (py_getitem rgw_usage "entries") py_iter) ;;
     for_each entries (_get_usage env) ;;
     _update_usage_metrics).

(** The (owner, bucket, category) keys of [usage_dict], in the order in
    which [_update_usage_metrics] visits them. *)
Definition triples (d : usage_dict_t) : list (key * key * key) :=
  flat_map
    (fun o =>
       flat_map
         (fun b => map (fun c => (o, b, c)) (keys (at_key b (at_key o d))))
         (keys (at_key o d)))
    (keys d).

(** The labels of a key: bucket, owner, category. *)
Definition usage_labels (t : key * key * key) : list json :=
  let '(o, b, c) := t in [json_of_key b; json_of_key o; json_of_key c].

(** The counter that a usage family exports. *)
Definition counter_name (f : family) : string :=
  match f with
  | ops => "ops"
  | successful_ops => "successful_ops"
  | bytes_sent => "bytes_sent"
  | bytes_received => "bytes_received"
  | _ => EmptyString
  end.

(** The four [add_metric] calls of [_update_usage_metrics] for one key. *)
Definition usage_samples_of (d : usage_dict_t) (t : key * key * key) : metrics :=
  let '(o, b, c) := t in
  let data_dict := counters d o b c in
  [(ops, Sample (usage_labels t) (VJson (counter_get data_dict "ops")));
   (successful_ops, Sample (usage_labels t) (VJson (counter_get data_dict "successful_ops")));
   (bytes_sent, Sample (usage_labels t) (VJson (counter_get data_dict "bytes_sent")));
   (bytes_received, Sample (usage_labels t) (VJson (counter_get data_dict "bytes_received")))].

(** Dicts whose keys are distinct, level by level. *)
Definition nodup_buckets (bd : dict (dict Counter)) : Prop :=
  NoDup (keys bd) /\ forall b, NoDup (keys (at_key b bd)).

Definition nodup_dict (d : usage_dict_t) : Prop :=
  NoDup (keys d) /\ forall o, nodup_buckets (at_key o d).

(** A method that keeps the keys of [usage_dict] distinct. *)
Definition keeps_nodup {A} (m : M A) : Prop :=
  forall st, nodup_dict (usage_dict st) -> nodup_dict (usage_dict (snd (m st))).

(** A method that, on set-up metrics, returns normally and adds exactly the
    samples [adds], whatever the admin URL. *)
Definition exports (m : M unit) (adds : metrics) : Prop :=
  forall st m0,
    _prometheus_metrics st = Some m0 ->
    exists st',
      m st = (Val tt, st')
      /\ _prometheus_metrics st' = Some (m0 ++ adds)
      /\ usage_dict st' = usage_dict st /\ url st' = url st.

(** The sample that a usage family gets for one key. *)
Definition usage_sample (d : usage_dict_t) (f : family) (t : key * key * key) : sample :=
  let '(o, b, c) := t in
  Sample (usage_labels t) (VJson (counter_get (counters d o b c) (counter_name f))).

(** A method whose outcome and usage dictionary depend on nothing but the
    usage dictionary it starts with. *)
Definition usage_only {A} (m : M A) : Prop :=
  forall st1 st2,
    usage_dict st1 = usage_dict st2 ->
    fst (m st1) = fst (m st2)
    /\ usage_dict (snd (m st1)) = usage_dict (snd (m st2)).


(** The label names that [_setup_empty_prometheus_metrics] declares for a
    family. *)
Definition label_names (f : family) : list string :=
  match f with
  | ops | successful_ops | bytes_sent | bytes_received =>
      ["bucket"; "owner"; "category"]
  | bucket_usage_bytes | bucket_utilized_bytes | bucket_usage_objects
  | bucket_quota_bytes | bucket_quota_max_objects =>
      ["bucket"; "owner"; "zonegroup"]
  | scrape_duration_seconds => []
  | user_quota_utilized | user_quota_limit | user_quota_used =>
      ["project_name"; "project_id"]
  end.

(** A sample with one label value for each label name of its family. *)
Definition fits_family (fs : family * sample) : bool :=
  (List.length (labels (snd fs)) =? List.length (label_names (fst fs)))%nat.

(** A method that, on set-up metrics, only adds samples that satisfy [P],
    whether it returns or raises. *)
Definition adds_samples {A} (P : family * sample -> bool) (m : M A) : Prop :=
  forall st m0,
    _prometheus_metrics st = Some m0 ->
    exists adds,
      _prometheus_metrics (snd (m st)) = Some (m0 ++ adds)
      /\ forallb P adds = true.

(** * Properties *)

(** ** Keys, dictionaries and the state transformers *)

Lemma key_eqb_spec (a b : key) : reflect (a = b) (key_eqb a b).
Proof.
  destruct a, b; simpl; try (constructor; congruence).
  - destruct (Z.eqb_spec z z0); constructor; congruence.
  - destruct (String.eqb_spec s s0); constructor; congruence.
Qed.

Lemma key_eqb_refl (k : key) : key_eqb k k = true.
Proof. destruct (key_eqb_spec k k); congruence. Qed.

Lemma has_key_lookup (k : string) (d : list (string * json)) :
  has_key k d = true -> exists v, lookup k d = Some v.
Proof. unfold has_key. destruct (lookup k d); eauto; discriminate. Qed.

Lemma has_key_None (k : string) (d : list (string * json)) :
  lookup k d = None -> has_key k d = false.
Proof. unfold has_key. intros ->. reflexivity. Qed.

Lemma has_key_Some (k : string) (d : list (string * json)) (v : json) :
  lookup k d = Some v -> has_key k d = true.
Proof. unfold has_key. intros ->. reflexivity. Qed.

Lemma samples_of_app (f : family) (m1 m2 : metrics) :
  samples_of f (m1 ++ m2) = samples_of f m1 ++ samples_of f m2.
Proof. unfold samples_of. rewrite filter_app, map_app. reflexivity. Qed.

Ltac run :=
  unfold bind, ret, lift, raise, when, print, get_usage_dict, set_usage_dict,
    add_metric, set_metrics; simpl.

(** ** The admin API client *)

Lemma request_data_ok (env : environment) (query : string)
    (args : option string) (st : collector) (r : response) (v : json) :
  requests_get env (request_target (url st) query args) = GetReturns r ->
  status_code r = 200 ->
  json_of r = Parsed v ->
  _request_data env query args st
  = (Val v, snd (when (DEBUG env) (print (DebugResponse 200)) st)).
Proof.
  intros Hget H200 Hv. unfold _request_data. rewrite Hget, H200, Hv. simpl.
  unfold bind, when. destruct (DEBUG env); reflexivity.
Qed.

(** C6, as the code has it: a response with status code 200 whose body
    parses is answered with the parsed value; a response with any other
    status code, the other 2xx codes included, whose body decodes as UTF-8
    makes the client print the status code and the body and return [None]. *)
Theorem request_data_by_status (env : environment) (query : string)
    (args : option string) (st : collector) (r : response) :
  requests_get env (request_target (url st) query args) = GetReturns r ->
  (status_code r = 200 ->
   forall v, json_of r = Parsed v ->
   _request_data env query args st
   = (Val v, snd (when (DEBUG env) (print (DebugResponse 200)) st)))
  /\ (status_code r <> 200 ->
      forall body, content_utf8 r = Some body ->
      _request_data env query args st
      = (Val JNull, snd (print (RequestErrorStatus (status_code r) body) st))).
Proof.
  intros Hget. split.
  - intros H200 v Hv. apply (@request_data_ok env query args st r v); assumption.
  - intros Hne body Hbody. unfold _request_data. rewrite Hget.
    destruct (Z.eqb_spec (status_code r) 200) as [E | _]; [contradiction |].
    rewrite Hbody. reflexivity.
Qed.

Definition env_created : environment :=
  Environment
    (gateway [("http://rgw/admin/bucket/?format=json&stats=True",
               GetReturns (Response 201 (Some "[]") (Parsed (JList []))))])
    true (fun _ => EmptyString) 0 1 false.

Lemma request_data_by_status_witness :
  _request_data env_created "bucket" (Some "stats=True")
    (__init__ "http://rgw" "admin" 60)
  = (Val JNull,
     snd (print (RequestErrorStatus 201 "[]") (__init__ "http://rgw" "admin" 60))).
Proof.
  refine (proj2 (@request_data_by_status env_created "bucket" (Some "stats=True")
                   (__init__ "http://rgw" "admin" 60)
                   (Response 201 (Some "[]") (Parsed (JList []))) _) _ "[]" _).
  - reflexivity.
  - simpl. lia.
  - reflexivity.
Defined.

(** C6, as stated, fails: a 201 answer is a 2xx answer whose body parses,
    and the client returns [None] instead of the parsed body. *)
Lemma request_data_2xx_counterexample :
  let r := Response 201 (Some "[]") (Parsed (JList [])) in
  requests_get env_created "http://rgw/admin/bucket/?format=json&stats=True"
  = GetReturns r
  /\ 200 <= status_code r < 300
  /\ json_of r = Parsed (JList [])
  /\ fst (_request_data env_created "bucket" (Some "stats=True")
            (__init__ "http://rgw" "admin" 60))
     <> Val (JList []).
Proof.
  simpl. repeat split; try reflexivity; try lia. discriminate.
Qed.

(** ** The usage merger: the owner of an entry *)

(** C10: an entry that has neither an [owner] nor a [user] field is not
    skipped: [_get_usage] reads the local [bucket_owner] that no branch has
    bound and raises, leaving the collector as it was. *)
Theorem get_usage_without_owner_raises (env : environment)
    (d : list (string * json)) (st : collector) :
  lookup "owner" d = None ->
  lookup "user" d = None ->
  _get_usage env (JDict d) st = (Exc (UnboundLocalError "bucket_owner"), st).
Proof.
  intros Ho Hu. unfold _get_usage. run.
  rewrite (has_key_None _ _ Ho), (has_key_None _ _ Hu). reflexivity.
Qed.

Lemma get_usage_without_owner_raises_witness :
  _get_usage env_created (JDict [("buckets", JList [])])
    (__init__ "http://rgw" "admin" 60)
  = (Exc (UnboundLocalError "bucket_owner"), __init__ "http://rgw" "admin" 60).
Proof.
  apply (@get_usage_without_owner_raises env_created
           [("buckets", JList [])] (__init__ "http://rgw" "admin" 60));
    reflexivity.
Defined.

(** ** The bucket stat normaliser *)

Lemma usage_block_main (usage : json) (d main : list (string * json)) :
  lookup "usage" d = Some usage ->
  usage_main d = Some main ->
  (has_key "size_actual" main
   || match lookup "size_kb_actual" main with
      | Some (JInt _) | None => true
      | Some _ => false
      end) = true ->
  usage_block usage
  = Val (match lookup "size_actual" main with
         | Some v => v
         | None =>
             match lookup "size_kb_actual" main with
             | Some (JInt kb) => JInt (kb * 1024)
             | _ => JInt 0
             end
         end,
         match lookup "size_utilized" main with Some v => v | None => JInt 0 end,
         match lookup "num_objects" main with Some v => v | None => JInt 0 end).
Proof.
  unfold usage_main. intros -> Hmain Hsize. unfold usage_block.
  destruct (py_truthy usage) eqn:Ht.
  - destruct usage as [| | | | | u]; try discriminate.
    destruct (lookup "rgw.main" u) as [mv |] eqn:Hm; [| discriminate].
    destruct mv as [| | | | | main']; try discriminate.
    injection Hmain as <-.
    unfold py_getitem at 1. rewrite Hm. simpl. unfold has_key in *.
    destruct (lookup "size_actual" main') as [sa |]; simpl.
    + destruct (lookup "size_utilized" main'), (lookup "num_objects" main');
        reflexivity.
    + destruct (lookup "size_kb_actual" main') as [kb |]; simpl.
      * destruct kb; try discriminate. simpl.
        destruct (lookup "size_utilized" main'), (lookup "num_objects" main');
          reflexivity.
      * destruct (lookup "size_utilized" main'), (lookup "num_objects" main');
          reflexivity.
  - injection Hmain as <-. reflexivity.
Qed.

Lemma zonegroup_block_dict (d : list (string * json)) :
  zonegroup_block (JDict d)
  = Val (match lookup "zonegroup" d with Some z => z | None => JStr "0" end).
Proof.
  unfold zonegroup_block. simpl. unfold has_key.
  destruct (lookup "zonegroup" d); reflexivity.
Qed.

Lemma quota_block_dict (d : list (string * json)) :
  match lookup "bucket_quota" d with
  | Some (JDict _) | None => true
  | Some _ => false
  end = true ->
  quota_block (JDict d)
  = Val (match lookup "bucket_quota" d with
         | Some (JDict q) =>
             (match lookup "max_size" q with Some v => v | None => JInt 0 end,
              match lookup "max_objects" q with Some v => v | None => JInt 0 end)
         | _ => (JInt 0, JInt 0)
         end).
Proof.
  unfold quota_block. simpl. unfold has_key.
  destruct (lookup "bucket_quota" d) as [q |]; [| reflexivity].
  destruct q as [| | | | | q]; try discriminate. intros _. simpl. unfold has_key.
  destruct (lookup "max_size" q), (lookup "max_objects" q); reflexivity.
Qed.

Lemma bucket_fields_wf (d : list (string * json)) :
  wf_bucket_record (JDict d) = true ->
  exists name owner main,
    lookup "bucket" d = Some name /\ lookup "owner" d = Some owner
    /\ usage_main d = Some main
    /\ bucket_fields (JDict d) = Val (locals_of d name owner main).
Proof.
  unfold wf_bucket_record. intros H.
  apply andb_prop in H as [H Hq]. apply andb_prop in H as [H Hm].
  apply andb_prop in H as [Hb Ho].
  apply has_key_lookup in Hb as [name Hb]. apply has_key_lookup in Ho as [owner Ho].
  destruct (usage_main d) as [main |] eqn:Hmain; [| discriminate].
  exists name, owner, main. repeat split; auto.
  assert (Hu : exists usage, lookup "usage" d = Some usage).
  { unfold usage_main in Hmain. destruct (lookup "usage" d); eauto; discriminate. }
  destruct Hu as [usage Hu].
  unfold bucket_fields. simpl. rewrite Hb, Ho, Hu. simpl.
  rewrite (@usage_block_main usage d main Hu Hmain Hm). simpl.
  rewrite zonegroup_block_dict. simpl.
  rewrite (@quota_block_dict d Hq). simpl.
  unfold locals_of.
  destruct (lookup "bucket_quota" d) as [q |]; [| reflexivity].
  destruct q; reflexivity.
Qed.

Lemma get_bucket_usage_fields (env : environment) (st : collector) (m : metrics)
    (d : list (string * json)) (l : bucket_locals) :
  _prometheus_metrics st = Some m ->
  bucket_fields (JDict d) = Val l ->
  exists st',
    _get_bucket_usage env (JDict d) st = (Val tt, st')
    /\ _prometheus_metrics st' = Some (m ++ bucket_samples l)
    /\ url st' = url st.
Proof.
  intros Hm Hl. unfold _get_bucket_usage. simpl is_dict. cbv iota.
  unfold bind at 1.
  assert (Hd : exists st0,
             when (DEBUG env) (print (DebugJson (JDict d))) st = (Val tt, st0)
             /\ _prometheus_metrics st0 = Some m /\ url st0 = url st).
  { unfold when. destruct (DEBUG env); run; eauto. }
  destruct Hd as (st0 & -> & Hm0 & Hu0).
  run. rewrite Hl. rewrite Hm0. simpl.
  eexists. split; [reflexivity |]. simpl. split; [| exact Hu0].
  unfold bucket_samples. repeat rewrite <- app_assoc. reflexivity.
Qed.



(** C8 fails on the code for the enclosing records of the usage figures: a
    record whose usage has no [rgw.main] record, and a record without a
    [usage] field, make [_get_bucket_usage] raise [KeyError]; no sample is
    added. *)
Theorem bucket_without_main_raises :
  _get_bucket_usage env_created multimeta_bucket st_ready
  = (Exc (KeyError "rgw.main"), st_ready)
  /\ _get_bucket_usage env_created bare_bucket st_ready
     = (Exc (KeyError "usage"), st_ready).
Proof. split; reflexivity. Qed.

(** ** The quota evaluator *)


Lemma same_attributes_trans (a b c : collector) :
  same_attributes a b -> same_attributes b c -> same_attributes a c.
Proof.
  unfold same_attributes.
  intros (H1 & H2 & H3 & H4 & H5 & H6) (K1 & K2 & K3 & K4 & K5 & K6).
  repeat split; congruence.
Qed.


Lemma request_data_frame (env : environment) (query : string)
    (args : option string) (st : collector) :
  same_attributes st (snd (_request_data env query args st)).
Proof.
  unfold _request_data.
  destruct (requests_get env _) as [r | message].
  - destruct (status_code r =? 200).
    + unfold bind, when.
      destruct (DEBUG env); simpl;
        destruct (json_of r); simpl;
        try destruct (json_error_is_request_exception env); simpl;
        unfold same_attributes; simpl; repeat split.
    + destruct (content_utf8 r); simpl;
        unfold same_attributes; simpl; repeat split.
  - unfold same_attributes; simpl; repeat split.
Qed.

Lemma get_quota_by_project_frame (env : environment) (project : json)
    (st : collector) :
  same_attributes st (snd (_get_quota_by_project env project st)).
Proof.
  unfold _get_quota_by_project, bind.
  pose proof (request_data_frame env "user"
    (Some (String.append "quota&uid="
             (String.append (py_str env project) "&quota-type=user"))) st) as H.
  destruct (_request_data env "user" _ st) as [[quota | e] st1]; simpl in *.
  - unfold lift. simpl. exact H.
  - exact H.
Qed.


(** C9: a user whose quota limit is zero or negative gets no sample: the
    evaluator returns at once and the metrics are as they were.  The
    evaluator changes the metrics only for a limit above zero.  A user with
    limit 1000 who uses 250 gets a utilisation of 25. *)
Theorem user_quota_only_above_zero (env : environment) (project : json)
    (st : collector) :
  (forall L st1,
     _get_quota_by_project env project st = (Val (JInt L), st1) ->
     L <= 0 ->
     _get_user_quota env project st = (Val tt, st1)
     /\ _prometheus_metrics st1 = _prometheus_metrics st)
  /\ (_prometheus_metrics (snd (_get_user_quota env project st))
      <> _prometheus_metrics st ->
      exists quota st1 L,
        _get_quota_by_project env project st = (Val quota, st1)
        /\ as_int quota = Some L /\ 0 < L)
  /\ (exists q,
        samples user_quota_utilized
          (snd (_get_user_quota (env_alice 1000 250) (JStr "alice") st_ready))
        = [Sample [JStr "Alice"; JStr "alice"] (VFloat q)]
        /\ Qeq q (inject_Z 25)).
Proof.
  split; [| split].
  - intros L st1 Hq HL.
    pose proof (get_quota_by_project_frame env project st) as Hf.
    rewrite Hq in Hf. destruct Hf as (_ & _ & _ & Hm & _).
    split; [| exact Hm].
    unfold _get_user_quota. unfold bind at 1. rewrite Hq.
    unfold bind, lift. simpl.
    destruct (Z.ltb_spec 0 L); [lia | reflexivity].
  - intros Hchg.
    pose proof (get_quota_by_project_frame env project st) as Hf.
    unfold _get_user_quota in Hchg. unfold bind at 1 in Hchg.
    destruct (_get_quota_by_project env project st) as [[quota | e] st1];
      simpl in Hf; destruct Hf as (_ & _ & _ & Hm & _).
    + unfold bind at 1 in Hchg. unfold lift at 1 in Hchg. unfold py_gt0 in Hchg.
      destruct (as_int quota) as [L |] eqn:HL.
      * destruct (Z.ltb_spec 0 L).
        -- exists quota, st1, L. repeat split; assumption.
        -- simpl in Hchg. congruence.
      * simpl in Hchg. congruence.
    + simpl in Hchg. congruence.
  - eexists. split; [vm_compute; reflexivity | reflexivity].
Qed.

Lemma user_quota_only_above_zero_witness :
  (_get_user_quota (env_alice 0 250) (JStr "alice") st_ready = (Val tt, st_ready)
   /\ _prometheus_metrics st_ready = _prometheus_metrics st_ready)
  /\ (exists quota st1 L,
        _get_quota_by_project (env_alice 1000 250) (JStr "alice") st_ready
        = (Val quota, st1)
        /\ as_int quota = Some L /\ 0 < L).
Proof.
  split.
  - refine (proj1 (@user_quota_only_above_zero (env_alice 0 250) (JStr "alice")
                     st_ready) 0 st_ready _ _).
    + reflexivity.
    + lia.
  - refine (proj1 (proj2 (@user_quota_only_above_zero (env_alice 1000 250)
                            (JStr "alice") st_ready)) _).
    vm_compute. discriminate.
Defined.






(** C1 fails on the code in the quota evaluator: when the quota query of a
    user is refused, [_request_data] returns [None] as it should, but
    [_get_quota_by_project] subscripts that [None]; the [TypeError] leaves
    [_get_user_quota], aborts the cycle and ends the scraping thread, so
    that no later cycle runs. *)
Theorem quota_fetch_failure_raises :
  fst (_request_data env_quota_down "user"
         (Some "quota&uid=alice&quota-type=user") st_ready) = Val JNull
  /\ fst (_get_user_quota env_quota_down (JStr "alice") st_ready) = Exc TypeError
  /\ fst (_scrape_metrics env_quota_down (__init__ "http://rgw" "admin" 60))
     = Exc TypeError
  /\ fst (_scrape_loop [env_quota_down; env_alice 1000 250]
            (__init__ "http://rgw" "admin" 60))
     = Exc TypeError.
Proof. repeat split; vm_compute; reflexivity. Qed.

(** ** One cycle without the usage log *)


Lemma request_data_fails (env : environment) (query : string)
    (args : option string) (st : collector) :
  fetch_fails (requests_get env (request_target (url st) query args)) = true ->
  exists st',
    _request_data env query args st = (Val JNull, st') /\ same_attributes st st'.
Proof.
  intros Hf.
  pose proof (request_data_frame env query args st) as F.
  unfold _request_data in *.
  destruct (requests_get env _) as [r | message]; simpl in Hf.
  - apply andb_prop in Hf as [Hs Hc]. apply negb_true_iff in Hs.
    rewrite Hs in *. destruct (content_utf8 r); [| discriminate].
    eexists. split; [reflexivity | exact F].
  - eexists. split; [reflexivity | exact F].
Qed.














(** Whatever the gateway and the user: a quota query that fails makes the
    quota evaluator raise. *)
Lemma get_user_quota_failed_quota (env : environment) (project : json)
    (st : collector) :
  fetch_fails (requests_get env (quota_target env (url st) project)) = true ->
  fst (_get_user_quota env project st) = Exc TypeError.
Proof.
  intros Hf. unfold quota_target in Hf.
  destruct (@request_data_fails env "user" _ st Hf) as (st1 & R & _).
  unfold _get_user_quota, _get_quota_by_project.
  unfold bind. rewrite R. reflexivity.
Qed.

(** ** The usage merger: accumulation *)

Lemma dict_get_set {V} (k k' : key) (v : V) (d : dict V) :
  dict_get k' (dict_set k v d) = if key_eqb k' k then Some v else dict_get k' d.
Proof.
  induction d as [| [k0 v0] d IH]; simpl.
  - reflexivity.
  - destruct (key_eqb_spec k k0) as [-> | Hne]; simpl.
    + destruct (key_eqb k' k0); reflexivity.
    + rewrite IH. destruct (key_eqb_spec k' k0) as [-> | Hne'].
      * destruct (key_eqb_spec k0 k); [congruence | reflexivity].
      * reflexivity.
Qed.

Lemma at_key_set {V} (k k' : key) (v : list V) (d : dict (list V)) :
  at_key k' (dict_set k v d) = if key_eqb k' k then v else at_key k' d.
Proof.
  unfold at_key. rewrite dict_get_set. destruct (key_eqb k' k); reflexivity.
Qed.


























Example merge_twice_accumulates :
  let d := snd (merge_usage env_created [alice_entry; alice_entry] st_ready) in
  total d (KStr "alice") (KStr "photos") (KStr "put_obj") "ops" = 6
  /\ total d (KStr "alice") (KStr "bucket_root") (KStr "list_buckets") "bytes_sent" = 240.
Proof. split; reflexivity. Qed.



(** ** Reads during a cycle *)

























Lemma collect_reads_snapshot (st : collector) (m : metrics) :
  _prometheus_metrics st = Some m -> collect st = (Val (snapshot m), st).
Proof. unfold collect. intros ->. reflexivity. Qed.



(** * Further properties of the collector *)

(** ** The admin API client *)

Lemma request_data_exn (env : environment) (query : string)
    (args : option string) (st : collector) (e : exn) :
  fst (_request_data env query args st) = Exc e ->
  exists r,
    requests_get env (request_target (url st) query args) = GetReturns r
    /\ ((status_code r <> 200 /\ content_utf8 r = None /\ e = UnicodeDecodeError)
        \/ (status_code r = 200 /\ json_of r = Malformed
            /\ json_error_is_request_exception env = false /\ e = ValueError)).
Proof.
  unfold _request_data.
  destruct (requests_get env _) as [r | message]; [| discriminate].
  intros H. exists r. split; [reflexivity |].
  destruct (Z.eqb_spec (status_code r) 200) as [E | N].
  - right. revert H. unfold bind, when.
    destruct (DEBUG env); simpl;
      (destruct (json_of r); simpl; [discriminate |]);
      (destruct (json_error_is_request_exception env); simpl; [discriminate |]);
      intros H; injection H as <-; auto.
  - left. destruct (content_utf8 r); simpl in H; [discriminate |].
    injection H as <-. auto.
Qed.



(** ** The usage merger: what an entry is read for *)

(** X2: [_get_usage] reads an entry for its owner and its buckets only: the
    owner is the [owner] field when there is one, whatever [user] holds,
    and the [user] field otherwise; any other field is ignored.  An entry
    behaves as the two-field entry made of its owner and its buckets. *)
Theorem get_usage_owner_and_buckets (env : environment)
    (ed : list (string * json)) (o b : json) (st : collector) :
  lookup "owner" ed = Some o
  \/ (lookup "owner" ed = None /\ lookup "user" ed = Some o) ->
  lookup "buckets" ed = Some b ->
  _get_usage env (JDict ed) st
  = _get_usage env (JDict [("owner", o); ("buckets", b)]) st.
Proof.
  intros Ho Hb. unfold _get_usage. simpl py_in. simpl py_getitem.
  rewrite Hb. simpl has_key. unfold has_key.
  destruct Ho as [Ho | [Ho Hu]].
  - rewrite Ho. reflexivity.
  - rewrite Ho, Hu. reflexivity.
Qed.

Lemma get_usage_owner_and_buckets_witness :
  _get_usage env_created
    (JDict [("user", JStr "bob"); ("owner", JStr "alice"); ("note", JNull);
            ("buckets", JList [])]) st_ready
  = _get_usage env_created
      (JDict [("owner", JStr "alice"); ("buckets", JList [])]) st_ready.
Proof.
  apply (@get_usage_owner_and_buckets env_created
           [("user", JStr "bob"); ("owner", JStr "alice"); ("note", JNull);
            ("buckets", JList [])] (JStr "alice") (JList []) st_ready).
  - left. reflexivity.
  - reflexivity.
Defined.

(** ** The bucket stat normaliser: skipped and refused records *)

Lemma debug_print_metrics (env : environment) (o : output) (st : collector) :
  exists st0,
    when (DEBUG env) (print o) st = (Val tt, st0)
    /\ _prometheus_metrics st0 = _prometheus_metrics st
    /\ url st0 = url st /\ usage_dict st0 = usage_dict st
    /\ published st0 = published st.
Proof. unfold when. destruct (DEBUG env); run; eauto 10. Qed.

Lemma get_bucket_usage_non_dict (env : environment) (bucket : json)
    (st : collector) :
  is_dict bucket = false ->
  fst (_get_bucket_usage env bucket st) = Val tt
  /\ _prometheus_metrics (snd (_get_bucket_usage env bucket st))
     = _prometheus_metrics st.
Proof.
  intros Hd.
  destruct (debug_print_metrics env (DebugJson bucket) st) as (st0 & R & Hm & _).
  assert (Hrun : _get_bucket_usage env bucket st = (Val tt, st0)).
  { unfold _get_bucket_usage. rewrite Hd. unfold bind. rewrite R. reflexivity. }
  rewrite Hrun. simpl. auto.
Qed.

(** X3: a bucket-stats value that is not a dict (a string, a number, a
    list, [null]) is skipped: [_get_bucket_usage] returns normally and adds
    no sample. *)
Theorem get_bucket_usage_skips_non_dict (env : environment) (bucket : json)
    (st : collector) :
  is_dict bucket = false ->
  fst (_get_bucket_usage env bucket st) = Val tt
  /\ _prometheus_metrics (snd (_get_bucket_usage env bucket st))
     = _prometheus_metrics st.
Proof. apply get_bucket_usage_non_dict. Qed.

Lemma get_bucket_usage_skips_non_dict_witness :
  fst (_get_bucket_usage env_created (JStr "junk") st_ready) = Val tt
  /\ _prometheus_metrics (snd (_get_bucket_usage env_created (JStr "junk") st_ready))
     = _prometheus_metrics st_ready.
Proof.
  apply (@get_bucket_usage_skips_non_dict env_created (JStr "junk") st_ready).
  reflexivity.
Defined.

(** X4: [_get_bucket_usage] adds the samples of a record all together or
    not at all.  On set-up metrics it either raises or skips, and then the
    metrics are as they were, or it adds five samples, one to each bucket
    family in a fixed order, all with the same labels (bucket, owner,
    zonegroup). *)
Theorem get_bucket_usage_all_or_nothing (env : environment) (bucket : json)
    (st : collector) (m : metrics) :
  _prometheus_metrics st = Some m ->
  (fst (_get_bucket_usage env bucket st) <> Val tt
   /\ _prometheus_metrics (snd (_get_bucket_usage env bucket st)) = Some m)
  \/ (fst (_get_bucket_usage env bucket st) = Val tt
      /\ is_dict bucket = false
      /\ _prometheus_metrics (snd (_get_bucket_usage env bucket st)) = Some m)
  \/ (fst (_get_bucket_usage env bucket st) = Val tt
      /\ exists name owner zonegroup v1 v2 v3 v4 v5,
           let l := [name; owner; zonegroup] in
           _prometheus_metrics (snd (_get_bucket_usage env bucket st))
           = Some (m ++ [(bucket_usage_bytes, Sample l (VJson v1));
                         (bucket_utilized_bytes, Sample l (VJson v2));
                         (bucket_usage_objects, Sample l (VJson v3));
                         (bucket_quota_bytes, Sample l (VJson v4));
                         (bucket_quota_max_objects, Sample l (VJson v5))])).
Proof.
  intros Hm.
  destruct (is_dict bucket) eqn:Hd.
  - destruct bucket as [| | | | | d]; try discriminate.
    destruct (bucket_fields (JDict d)) as [l | e] eqn:Hl.
    + right; right.
      destruct (get_bucket_usage_fields env st d Hm Hl) as (st' & R & Hm' & _).
      rewrite R. simpl. split; [reflexivity |].
      exists (bucket_name l), (bucket_owner l), (bucket_zonegroup l),
        (local_usage_bytes l), (local_utilized_bytes l), (local_usage_objects l),
        (local_quota_bytes l), (local_quota_max_objects l).
      exact Hm'.
    + left.
      destruct (debug_print_metrics env (DebugJson (JDict d)) st)
        as (st0 & R & Hm0 & _).
      assert (Hrun : _get_bucket_usage env (JDict d) st = (Exc e, st0)).
      { unfold _get_bucket_usage. simpl is_dict. cbv iota.
        unfold bind at 1. rewrite R. unfold bind, lift. rewrite Hl. reflexivity. }
      rewrite Hrun. simpl. split; [discriminate | rewrite Hm0; exact Hm].
  - right; left.
    destruct (@get_bucket_usage_non_dict env bucket st Hd) as [R Hm'].
    split; [exact R |]. split; [reflexivity |]. rewrite Hm'. exact Hm.
Qed.

Lemma get_bucket_usage_all_or_nothing_witness :
  (fst (_get_bucket_usage env_created multimeta_bucket st_ready) <> Val tt
   /\ _prometheus_metrics (snd (_get_bucket_usage env_created multimeta_bucket st_ready))
      = Some [])
  \/ (fst (_get_bucket_usage env_created multimeta_bucket st_ready) = Val tt
      /\ is_dict multimeta_bucket = false
      /\ _prometheus_metrics (snd (_get_bucket_usage env_created multimeta_bucket st_ready))
         = Some [])
  \/ (fst (_get_bucket_usage env_created multimeta_bucket st_ready) = Val tt
      /\ exists name owner zonegroup v1 v2 v3 v4 v5,
           let l := [name; owner; zonegroup] in
           _prometheus_metrics (snd (_get_bucket_usage env_created multimeta_bucket st_ready))
           = Some ([] ++ [(bucket_usage_bytes, Sample l (VJson v1));
                          (bucket_utilized_bytes, Sample l (VJson v2));
                          (bucket_usage_objects, Sample l (VJson v3));
                          (bucket_quota_bytes, Sample l (VJson v4));
                          (bucket_quota_max_objects, Sample l (VJson v5))])).
Proof.
  apply (@get_bucket_usage_all_or_nothing env_created multimeta_bucket st_ready []).
  reflexivity.
Defined.

(** X5: a dict record that lacks one of the fields the normaliser
    subscripts without a test is refused with a [KeyError] that names the
    first field missing, in the order [bucket], [owner], [usage], and, for a
    usage dict that is not empty, [rgw.main]; no sample is added. *)
Theorem get_bucket_usage_required_fields (env : environment)
    (d : list (string * json)) (st : collector) :
  let missing :=
    match lookup "bucket" d, lookup "owner" d, lookup "usage" d with
    | None, _, _ => Some "bucket"
    | Some _, None, _ => Some "owner"
    | Some _, Some _, None => Some "usage"
    | Some _, Some _, Some (JDict (item :: u)) =>
        match lookup "rgw.main" (item :: u) with
        | None => Some "rgw.main"
        | Some _ => None
        end
    | Some _, Some _, Some _ => None
    end in
  forall k,
    missing = Some k ->
    fst (_get_bucket_usage env (JDict d) st) = Exc (KeyError k)
    /\ _prometheus_metrics (snd (_get_bucket_usage env (JDict d) st))
       = _prometheus_metrics st.
Proof.
  intros missing k Hk.
  assert (Hf : bucket_fields (JDict d) = Exc (KeyError k)).
  { unfold missing in Hk. unfold bucket_fields. simpl.
    destruct (lookup "bucket" d); [| injection Hk as <-; reflexivity].
    destruct (lookup "owner" d); [| injection Hk as <-; reflexivity].
    destruct (lookup "usage" d) as [usage |]; [| injection Hk as <-; reflexivity].
    simpl. destruct usage as [| | | | | u]; try discriminate.
    destruct u as [| item u]; [discriminate |].
    unfold usage_block. simpl py_truthy. cbv iota. unfold py_getitem at 1.
    destruct (lookup "rgw.main" (item :: u)); [discriminate |].
    injection Hk as <-. reflexivity. }
  destruct (debug_print_metrics env (DebugJson (JDict d)) st) as (st0 & R & Hm0 & _).
  assert (Hrun : _get_bucket_usage env (JDict d) st = (Exc (KeyError k), st0)).
  { unfold _get_bucket_usage. simpl is_dict. cbv iota.
    unfold bind at 1. rewrite R. unfold bind, lift. rewrite Hf. reflexivity. }
  rewrite Hrun. simpl. split; [reflexivity | exact Hm0].
Qed.

Lemma get_bucket_usage_required_fields_witness :
  fst (_get_bucket_usage env_created (JDict [("bucket", JStr "b")]) st_ready)
  = Exc (KeyError "owner")
  /\ _prometheus_metrics
       (snd (_get_bucket_usage env_created (JDict [("bucket", JStr "b")]) st_ready))
     = _prometheus_metrics st_ready.
Proof.
  apply (@get_bucket_usage_required_fields env_created [("bucket", JStr "b")]
           st_ready "owner").
  reflexivity.
Defined.

(** X6: for a dict record in good shape, the samples of the other four
    bucket families carry [size_utilized], [num_objects] and the
    [max_size] and [max_objects] of the [bucket_quota] record, each 0 when
    the field, or the quota record, is not there; the zonegroup label is
    the record's [zonegroup], ["0"] when it has none. *)
Theorem bucket_other_fields_default (env : environment) (st : collector)
    (d : list (string * json)) :
  _prometheus_metrics st <> None ->
  wf_bucket_record (JDict d) = true ->
  exists st' name owner main,
    lookup "bucket" d = Some name /\ lookup "owner" d = Some owner
    /\ usage_main d = Some main
    /\ _get_bucket_usage env (JDict d) st = (Val tt, st')
    /\ let l := [name; owner;
                 match lookup "zonegroup" d with Some z => z | None => JStr "0" end] in
       let quota name :=
         match lookup "bucket_quota" d with
         | Some (JDict q) => match lookup name q with Some v => v | None => JInt 0 end
         | _ => JInt 0
         end in
       samples bucket_utilized_bytes st'
       = samples bucket_utilized_bytes st
         ++ [Sample l (VJson match lookup "size_utilized" main with
                             | Some v => v | None => JInt 0 end)]
       /\ samples bucket_usage_objects st'
          = samples bucket_usage_objects st
            ++ [Sample l (VJson match lookup "num_objects" main with
                                | Some v => v | None => JInt 0 end)]
       /\ samples bucket_quota_bytes st'
          = samples bucket_quota_bytes st ++ [Sample l (VJson (quota "max_size"))]
       /\ samples bucket_quota_max_objects st'
          = samples bucket_quota_max_objects st
            ++ [Sample l (VJson (quota "max_objects"))].
Proof.
  intros Hset Hwf.
  destruct (_prometheus_metrics st) as [m |] eqn:Hm; [| congruence].
  destruct (bucket_fields_wf d Hwf) as (name & owner & main & Hb & Ho & Hmain & Hl).
  destruct (get_bucket_usage_fields env st d Hm Hl) as (st' & R & Hm' & _).
  exists st', name, owner, main. repeat split; try assumption;
    unfold samples; rewrite Hm', Hm, samples_of_app; reflexivity.
Qed.

Lemma bucket_other_fields_default_witness :
  exists st' name owner main,
    lookup "bucket" [("bucket", JStr "b"); ("owner", JStr "o");
                     ("usage", JDict [("rgw.main", JDict [("size_kb_actual", JInt 100)])])]
    = Some name
    /\ lookup "owner" [("bucket", JStr "b"); ("owner", JStr "o");
                       ("usage", JDict [("rgw.main", JDict [("size_kb_actual", JInt 100)])])]
       = Some owner
    /\ usage_main [("bucket", JStr "b"); ("owner", JStr "o");
                   ("usage", JDict [("rgw.main", JDict [("size_kb_actual", JInt 100)])])]
       = Some main
    /\ _get_bucket_usage env_created hammer_bucket st_ready = (Val tt, st')
    /\ (samples bucket_utilized_bytes st'
        = samples bucket_utilized_bytes st_ready
          ++ [Sample [name; owner; JStr "0"]
                (VJson match lookup "size_utilized" main with
                       | Some v => v | None => JInt 0 end)]
        /\ samples bucket_usage_objects st'
           = samples bucket_usage_objects st_ready
             ++ [Sample [name; owner; JStr "0"]
                   (VJson match lookup "num_objects" main with
                          | Some v => v | None => JInt 0 end)]
        /\ samples bucket_quota_bytes st'
           = samples bucket_quota_bytes st_ready
             ++ [Sample [name; owner; JStr "0"] (VJson (JInt 0))]
        /\ samples bucket_quota_max_objects st'
           = samples bucket_quota_max_objects st_ready
             ++ [Sample [name; owner; JStr "0"] (VJson (JInt 0))]).
Proof.
  refine (@bucket_other_fields_default env_created st_ready _ _ _).
  - discriminate.
  - reflexivity.
Defined.

(** ** The quota evaluator: skipped users, aligned records, divisions *)

(** X7: when the quota of a user is above zero and the query for the
    user's statistics fails, the evaluator skips the user: it returns
    normally and adds no sample. *)
Theorem get_user_quota_skips_failed_info (env : environment) (project : json)
    (st st1 : collector) (L : Z) :
  _get_quota_by_project env project st = (Val (JInt L), st1) ->
  0 < L ->
  fetch_fails (requests_get env (info_target env (url st) project)) = true ->
  exists st2,
    _get_user_quota env project st = (Val tt, st2)
    /\ _prometheus_metrics st2 = _prometheus_metrics st.
Proof.
  intros Hq HL Hf.
  pose proof (get_quota_by_project_frame env project st) as F1.
  rewrite Hq in F1. simpl in F1. destruct F1 as (_ & Hu1 & _ & Hm1 & _).
  unfold info_target in Hf. rewrite <- Hu1 in Hf.
  destruct (@request_data_fails env "user" _ st1 Hf)
    as (st2 & R & (_ & _ & _ & Hm2 & _)).
  exists st2. split; [| rewrite Hm2; exact Hm1].
  unfold _get_user_quota. unfold bind at 1. rewrite Hq.
  unfold bind at 1. unfold lift at 1. unfold py_gt0. simpl as_int. cbv iota.
  assert (Hlt : (0 <? L) = true) by (apply Z.ltb_lt; lia). rewrite Hlt.
  unfold bind at 1. unfold _get_user_info. rewrite R. reflexivity.
Qed.

Lemma get_user_quota_skips_failed_info_witness :
  exists st2,
    _get_user_quota
      (Environment
         (gateway
            [("http://rgw/admin/user/?format=json&quota&uid=alice&quota-type=user",
              ok_json (JDict [("max_size", JInt 1000)]))])
         true (fun _ => EmptyString) 0 1 false)
      (JStr "alice") st_ready
    = (Val tt, st2)
    /\ _prometheus_metrics st2 = _prometheus_metrics st_ready.
Proof.
  refine (@get_user_quota_skips_failed_info _ (JStr "alice") st_ready st_ready
            1000 _ _ _).
  - reflexivity.
  - lia.
  - reflexivity.
Defined.



Lemma py_getitem_exn (v : json) (k : string) (e : exn) :
  py_getitem v k = Exc e -> e = TypeError \/ e = KeyError k.
Proof.
  destruct v; simpl; try (intros H; injection H as <-; auto).
  destruct (lookup k d); [discriminate |]. intros H; injection H as <-; auto.
Qed.

(** X9: the evaluator never divides by zero.  The division is reached only
    after the test [project_quota > 0], so whatever the gateway answers,
    [_get_user_quota] does not raise [ZeroDivisionError]. *)
Theorem get_user_quota_never_divides_by_zero (env : environment)
    (project : json) (st : collector) :
  fst (_get_user_quota env project st) <> Exc ZeroDivisionError.
Proof.
  unfold _get_user_quota. unfold bind at 1.
  assert (Hreq : forall q a s, fst (_request_data env q a s) <> Exc ZeroDivisionError).
  { intros q a s H. apply request_data_exn in H as (r & _ & [(_ & _ & E) | (_ & _ & _ & E)]);
      discriminate. }
  destruct (_get_quota_by_project env project st) as [[quota | e] st1] eqn:Hq.
  2: { simpl. intros H. injection H as ->.
       unfold _get_quota_by_project, bind in Hq.
       specialize (Hreq "user"
         (Some (String.append "quota&uid="
                  (String.append (py_str env project) "&quota-type=user"))) st).
       destruct (_request_data env "user" _ st) as [[v | e] s]; simpl in *.
       - unfold lift in Hq. injection Hq as Hq _.
         apply py_getitem_exn in Hq as [Hq | Hq]; discriminate.
       - injection Hq as -> _. congruence. }
  unfold bind at 1. unfold lift at 1. unfold py_gt0.
  destruct (as_int quota) as [z |] eqn:Hz; [| simpl; discriminate].
  destruct (Z.ltb_spec 0 z) as [Hpos | _]; [| simpl; discriminate].
  unfold bind at 1.
  specialize (Hreq "user"
    (Some (String.append "stats=True&uid=" (py_str env project))) st1).
  unfold _get_user_info.
  destruct (_request_data env "user" _ st1) as [[user | e] st2]; simpl in Hreq;
    [| simpl; congruence].
  destruct (is_not_None user); [| simpl; discriminate].
  unfold bind at 1. unfold lift at 1.
  destruct (py_getitem user "display_name") as [name | e] eqn:H1;
    [| apply py_getitem_exn in H1 as [-> | ->]; simpl; discriminate].
  unfold bind at 1. unfold lift at 1.
  destruct (py_getitem user "user_id") as [id | e] eqn:H2;
    [| apply py_getitem_exn in H2 as [-> | ->]; simpl; discriminate].
  unfold bind at 1. unfold lift at 1.
  destruct (obind (py_getitem user "stats")
              (fun stats => py_getitem stats "size_actual")) as [used | e] eqn:H3.
  2: { unfold obind in H3.
       destruct (py_getitem user "stats") as [stats | e'] eqn:H3'.
       - apply py_getitem_exn in H3 as [-> | ->]; simpl; discriminate.
       - injection H3 as <-.
         apply py_getitem_exn in H3' as [-> | ->]; simpl; discriminate. }
  unfold bind at 1. unfold lift at 1.
  destruct (obind (py_mul used 100) (fun n => py_truediv n quota)) as [pct | e] eqn:H4.
  - unfold bind, add_metric, set_metrics.
    destruct (_prometheus_metrics st2); simpl; discriminate.
  - simpl. intros H. injection H as ->.
    unfold obind in H4. destruct (py_mul used 100) as [n | e'] eqn:Hmul.
    + unfold py_truediv in H4. rewrite Hz in H4.
      destruct (as_int n); [| discriminate].
      destruct (Z.eqb_spec z 0); [lia |].
      destruct (float_limit * Z.abs z <=? Z.abs z0); discriminate.
    + injection H4 as ->. destruct used; discriminate.
Qed.

(** ** The constructor: the gateway's address *)








(** ** What a method depends on, and which families it feeds *)

Lemma agree_refl (st : collector) : agree st st.
Proof. unfold agree. auto. Qed.

Lemma respects_ret {A} (a : A) : respects (ret a).
Proof. split; [reflexivity |]. intros st1 st2 H. split; [reflexivity | exact H]. Qed.

Lemma respects_raise {A} (e : exn) : respects (@raise A e).
Proof. split; [reflexivity |]. intros st1 st2 H. split; [reflexivity | exact H]. Qed.

Lemma respects_lift {A} (o : outcome A) : respects (lift o).
Proof. split; [reflexivity |]. intros st1 st2 H. split; [reflexivity | exact H]. Qed.

Lemma respects_print (o : output) : respects (print o).
Proof. split; [reflexivity |]. intros st1 st2 H. split; [reflexivity | exact H]. Qed.

Lemma respects_get_usage_dict : respects get_usage_dict.
Proof.
  split; [reflexivity |]. intros st1 st2 H. split; [| exact H].
  simpl. destruct H as (_ & _ & H). rewrite H. reflexivity.
Qed.

Lemma respects_set_usage_dict (d : usage_dict_t) : respects (set_usage_dict d).
Proof.
  split; [reflexivity |]. intros st1 st2 (Hu & Hm & _).
  split; [reflexivity |]. unfold agree. simpl. auto.
Qed.

Lemma respects_set_metrics (m : metrics) : respects (set_metrics m).
Proof.
  split; [reflexivity |]. intros st1 st2 (Hu & _ & Hd).
  split; [reflexivity |]. unfold agree. simpl. auto.
Qed.

Lemma respects_add_metric (f : family) (l : list json) (v : value) :
  respects (add_metric f l v).
Proof.
  split.
  - intros st. unfold add_metric. destruct (_prometheus_metrics st); reflexivity.
  - intros st1 st2 (Hu & Hm & Hd). unfold add_metric. rewrite Hm.
    destruct (_prometheus_metrics st2) eqn:E; simpl.
    + split; [reflexivity |]. unfold agree. simpl. auto.
    + split; [reflexivity |]. unfold agree. rewrite Hm, E. auto.
Qed.

Lemma respects_bind {A B} (m : M A) (k : A -> M B) :
  respects m -> (forall a, respects (k a)) -> respects (bind m k).
Proof.
  intros [Um Rm] Hk. split.
  - intros st. unfold bind. pose proof (Um st) as U.
    destruct (m st) as [[a | e] st1]; simpl in U |- *; [| exact U].
    rewrite (proj1 (Hk a) st1). exact U.
  - intros st1 st2 H. unfold bind. specialize (Rm st1 st2 H).
    destruct (m st1) as [[a1 | e1] s1], (m st2) as [[a2 | e2] s2];
      simpl in Rm; destruct Rm as [E Hs]; try discriminate.
    + injection E as <-. apply (proj2 (Hk a1)). exact Hs.
    + injection E as <-. split; [reflexivity | exact Hs].
Qed.

Lemma respects_when (b : bool) (m : M unit) : respects m -> respects (when b m).
Proof. intros H. destruct b; [exact H | apply respects_ret]. Qed.

Lemma respects_for_each {A} (l : list A) (body : A -> M unit) :
  (forall x, respects (body x)) -> respects (for_each l body).
Proof.
  intros H. induction l as [| x l IH]; simpl.
  - apply respects_ret.
  - apply respects_bind; [apply H | intros _; exact IH].
Qed.

Lemma respects_request_data (env : environment) (query : string)
    (args : option string) :
  respects (_request_data env query args).
Proof.
  split.
  - intros st. apply request_data_frame.
  - intros st1 st2 (Hu & Hm & Hd).
    pose proof (request_data_frame env query args st1) as (_ & U1 & _ & M1 & D1 & _).
    pose proof (request_data_frame env query args st2) as (_ & U2 & _ & M2 & D2 & _).
    split; [| unfold agree; rewrite U1, U2, M1, M2, D1, D2; auto].
    unfold _request_data. rewrite Hu.
    destruct (requests_get env _) as [r | message]; [| reflexivity].
    destruct (status_code r =? 200).
    + unfold bind, when. destruct (DEBUG env); simpl;
        destruct (json_of r); simpl;
        try destruct (json_error_is_request_exception env); reflexivity.
    + destruct (content_utf8 r); reflexivity.
Qed.

Ltac respects_step :=
  first
    [ apply respects_ret | apply respects_raise | apply respects_lift
    | apply respects_print | apply respects_get_usage_dict
    | apply respects_set_usage_dict | apply respects_set_metrics
    | apply respects_add_metric | apply respects_request_data
    | apply respects_when | apply respects_for_each; intros
    | apply respects_bind; [| intros]
    | match goal with
      | |- respects (if ?b then _ else _) => destruct b
      | |- respects (let (_, _) := ?x in _) => destruct x
      end ].

Lemma respects_get_usage (env : environment) (entry : json) :
  respects (_get_usage env entry).
Proof. unfold _get_usage, usage_bucket, usage_category. repeat respects_step. Qed.

Lemma respects_update_usage_metrics : respects _update_usage_metrics.
Proof. unfold _update_usage_metrics. repeat respects_step. Qed.

Lemma respects_get_bucket_usage (env : environment) (bucket : json) :
  respects (_get_bucket_usage env bucket).
Proof. unfold _get_bucket_usage. repeat respects_step. Qed.

Lemma respects_get_user_quota (env : environment) (project : json) :
  respects (_get_user_quota env project).
Proof.
  unfold _get_user_quota, _get_quota_by_project, _get_user_info.
  repeat respects_step.
Qed.

Lemma respects_scrape_after_setup (env : environment) :
  respects (scrape_after_setup env).
Proof.
  unfold scrape_after_setup, _get_users_ids.
  repeat first
    [ apply respects_get_usage | apply respects_update_usage_metrics
    | apply respects_get_bucket_usage | apply respects_get_user_quota
    | respects_step ].
Qed.

Lemma respects_scrape_metrics (env : environment) : respects (_scrape_metrics env).
Proof.
  unfold _scrape_metrics, _setup_empty_prometheus_metrics.
  apply respects_bind; [apply respects_set_metrics |].
  intros _. apply respects_scrape_after_setup.
Qed.



Lemma adds_families_frame {A} (P : family -> bool) (m : M A) :
  (forall st, _prometheus_metrics (snd (m st)) = _prometheus_metrics st) ->
  adds_families P m.
Proof.
  intros H st m0 Hm. exists []. rewrite H, app_nil_r. split; [exact Hm | reflexivity].
Qed.

Lemma adds_families_ret {A} (P : family -> bool) (a : A) : adds_families P (ret a).
Proof. apply adds_families_frame. reflexivity. Qed.

Lemma adds_families_raise {A} (P : family -> bool) (e : exn) :
  adds_families P (@raise A e).
Proof. apply adds_families_frame. reflexivity. Qed.

Lemma adds_families_lift {A} (P : family -> bool) (o : outcome A) :
  adds_families P (lift o).
Proof. apply adds_families_frame. reflexivity. Qed.

Lemma adds_families_print (P : family -> bool) (o : output) :
  adds_families P (print o).
Proof. apply adds_families_frame. reflexivity. Qed.

Lemma adds_families_get_usage_dict (P : family -> bool) :
  adds_families P get_usage_dict.
Proof. apply adds_families_frame. reflexivity. Qed.

Lemma adds_families_set_usage_dict (P : family -> bool) (d : usage_dict_t) :
  adds_families P (set_usage_dict d).
Proof. apply adds_families_frame. reflexivity. Qed.

Lemma adds_families_request_data (P : family -> bool) (env : environment)
    (query : string) (args : option string) :
  adds_families P (_request_data env query args).
Proof.
  apply adds_families_frame. intros st.
  apply (request_data_frame env query args st).
Qed.

Lemma adds_families_add_metric (P : family -> bool) (f : family)
    (l : list json) (v : value) :
  P f = true -> adds_families P (add_metric f l v).
Proof.
  intros Hf st m0 Hm. unfold add_metric. rewrite Hm. simpl.
  exists [(f, Sample l v)]. split; [reflexivity |]. simpl. rewrite Hf. reflexivity.
Qed.

Lemma adds_families_bind {A B} (P : family -> bool) (m : M A) (k : A -> M B) :
  adds_families P m -> (forall a, adds_families P (k a)) ->
  adds_families P (bind m k).
Proof.
  intros Hm Hk st m0 H0.
  destruct (Hm st m0 H0) as (a1 & E1 & F1).
  unfold bind. destruct (m st) as [[a | e] st1]; simpl in *.
  - destruct (Hk a st1 _ E1) as (a2 & E2 & F2).
    exists (a1 ++ a2). rewrite app_assoc. split; [exact E2 |].
    rewrite forallb_app, F1, F2. reflexivity.
  - exists a1. split; assumption.
Qed.

Lemma adds_families_when (P : family -> bool) (b : bool) (m : M unit) :
  adds_families P m -> adds_families P (when b m).
Proof. intros H. destruct b; [exact H | apply adds_families_ret]. Qed.

Lemma adds_families_for_each {A} (P : family -> bool) (l : list A)
    (body : A -> M unit) :
  (forall x, adds_families P (body x)) -> adds_families P (for_each l body).
Proof.
  intros H. induction l as [| x l IH]; simpl.
  - apply adds_families_ret.
  - apply adds_families_bind; [apply H | intros _; exact IH].
Qed.

Ltac adds_families_step :=
  first
    [ apply adds_families_ret | apply adds_families_raise | apply adds_families_lift
    | apply adds_families_print | apply adds_families_get_usage_dict
    | apply adds_families_set_usage_dict | apply adds_families_request_data
    | apply adds_families_add_metric; reflexivity
    | apply adds_families_when | apply adds_families_for_each; intros
    | apply adds_families_bind; [| intros]
    | match goal with
      | |- adds_families _ (if ?b then _ else _) => destruct b
      | |- adds_families _ (let (_, _) := ?x in _) => destruct x
      end ].

Lemma adds_families_get_usage (env : environment) (entry : json) :
  adds_families no_family (_get_usage env entry).
Proof.
  unfold _get_usage, usage_bucket, usage_category. repeat adds_families_step.
Qed.

Lemma adds_families_update_usage_metrics :
  adds_families is_usage_family _update_usage_metrics.
Proof. unfold _update_usage_metrics. repeat adds_families_step. Qed.

Lemma adds_families_get_bucket_usage (env : environment) (bucket : json) :
  adds_families is_bucket_family (_get_bucket_usage env bucket).
Proof. unfold _get_bucket_usage. repeat adds_families_step. Qed.

Lemma adds_families_get_user_quota (env : environment) (project : json) :
  adds_families is_quota_family (_get_user_quota env project).
Proof.
  unfold _get_user_quota, _get_quota_by_project, _get_user_info.
  repeat adds_families_step.
Qed.

Lemma adds_families_weaken {A} (P Q : family -> bool) (m : M A) :
  (forall f, P f = true -> Q f = true) -> adds_families P m -> adds_families Q m.
Proof.
  intros HPQ H st m0 Hm. destruct (H st m0 Hm) as (adds & E & F).
  exists adds. split; [exact E |].
  rewrite forallb_forall in *. intros fs Hin. apply HPQ. apply F. exact Hin.
Qed.

Lemma adds_families_usage_phase (env : environment) (rgw_usage : json) :
  adds_families is_usage_family
    (when (py_truthy rgw_usage)
       (entries <- lift (obind (py_getitem rgw_usage "entries") py_iter) ;;
        for_each entries (_get_usage env) ;;
        _update_usage_metrics)).
Proof.
  apply adds_families_when. apply adds_families_bind; [apply adds_families_lift |].
  intros entries. apply adds_families_bind.
  - apply adds_families_for_each. intros x.
    apply (adds_families_weaken (P := no_family)); [discriminate |].
    apply adds_families_get_usage.
  - intros _. apply adds_families_update_usage_metrics.
Qed.

Lemma adds_families_bucket_phase (env : environment) (rgw_bucket : json) :
  adds_families is_bucket_family
    (when (py_truthy rgw_bucket)
       (buckets <- lift (py_iter rgw_bucket) ;;
        for_each buckets (_get_bucket_usage env))).
Proof.
  apply adds_families_when. apply adds_families_bind; [apply adds_families_lift |].
  intros buckets. apply adds_families_for_each. intros x.
  apply adds_families_get_bucket_usage.
Qed.

Lemma adds_families_user_phase (env : environment) (rgw_users : json) :
  adds_families is_quota_family
    (when (py_truthy rgw_users)
       (users <- lift (py_iter rgw_users) ;;
        for_each users (_get_user_quota env))).
Proof.
  apply adds_families_when. apply adds_families_bind; [apply adds_families_lift |].
  intros users. apply adds_families_for_each. intros x.
  apply adds_families_get_user_quota.
Qed.

(** ** Exporting the usage counters *)

Lemma exports_for_each {A} (body : A -> M unit) (g : A -> metrics) (l : list A) :
  (forall x, exports (body x) (g x)) -> exports (for_each l body) (flat_map g l).
Proof.
  intros H. induction l as [| x l IH]; intros st m Hm; simpl.
  - rewrite app_nil_r. exists st. unfold ret. auto.
  - destruct (H x st m Hm) as (st1 & R1 & Hm1 & Hd1 & Hu1).
    destruct (IH st1 _ Hm1) as (st2 & R2 & Hm2 & Hd2 & Hu2).
    exists st2. unfold bind. rewrite R1, R2. rewrite app_assoc.
    repeat split; congruence.
Qed.

Lemma exports_add_four (d : usage_dict_t) (o b c : key) :
  exports
    (let data_dict := at_key c (at_key b (at_key o d)) in
     let l := [json_of_key b; json_of_key o; json_of_key c] in
     add_metric ops l (VJson (counter_get data_dict "ops")) ;;
     add_metric successful_ops l (VJson (counter_get data_dict "successful_ops")) ;;
     add_metric bytes_sent l (VJson (counter_get data_dict "bytes_sent")) ;;
     add_metric bytes_received l (VJson (counter_get data_dict "bytes_received")))
    (usage_samples_of d (o, b, c)).
Proof.
  intros st m Hm. cbv zeta. run. rewrite Hm. simpl.
  eexists. split; [reflexivity |]. simpl.
  repeat rewrite <- app_assoc. repeat split.
Qed.

Lemma flat_map_singleton {A B} (h : A -> B) (l : list A) :
  flat_map (fun x => [h x]) l = map h l.
Proof. induction l as [| x l IH]; simpl; [reflexivity | rewrite IH; reflexivity]. Qed.

Lemma map_flat_map {A B C} (h : B -> C) (g : A -> list B) (l : list A) :
  map h (flat_map g l) = flat_map (fun x => map h (g x)) l.
Proof.
  induction l as [| x l IH]; simpl; [reflexivity |].
  rewrite map_app, IH. reflexivity.
Qed.

Lemma samples_of_flat_map {A} (f : family) (g : A -> metrics) (l : list A) :
  samples_of f (flat_map g l) = flat_map (fun x => samples_of f (g x)) l.
Proof.
  induction l as [| x l IH]; simpl; [reflexivity |].
  rewrite samples_of_app, IH. reflexivity.
Qed.

Lemma flat_map_flat_map {A B C} (g : A -> list B) (h : B -> list C) (l : list A) :
  flat_map h (flat_map g l) = flat_map (fun x => flat_map h (g x)) l.
Proof.
  induction l as [| x l IH]; simpl; [reflexivity |].
  rewrite flat_map_app, IH. reflexivity.
Qed.

Lemma flat_map_of_map {A B C} (g : B -> list C) (h : A -> B) (l : list A) :
  flat_map g (map h l) = flat_map (fun x => g (h x)) l.
Proof. induction l as [| x l IH]; simpl; [reflexivity | rewrite IH; reflexivity]. Qed.

Lemma update_usage_metrics_exports (d : usage_dict_t) :
  forall st m0,
    usage_dict st = d ->
    _prometheus_metrics st = Some m0 ->
    exists st',
      _update_usage_metrics st = (Val tt, st')
      /\ _prometheus_metrics st' = Some (m0 ++ flat_map (usage_samples_of d) (triples d))
      /\ usage_dict st' = d /\ url st' = url st.
Proof.
  intros st m0 Hd Hm. unfold _update_usage_metrics.
  unfold bind at 1. unfold get_usage_dict. cbv beta iota. rewrite Hd.
  assert (Hex : exports
            (for_each (keys d) (fun bucket_owner =>
               for_each (keys (at_key bucket_owner d)) (fun bucket_name =>
                 for_each (keys (at_key bucket_name (at_key bucket_owner d)))
                   (fun category =>
                      let data_dict :=
                        at_key category (at_key bucket_name (at_key bucket_owner d)) in
                      let l := [json_of_key bucket_name; json_of_key bucket_owner;
                                json_of_key category] in
                      add_metric ops l (VJson (counter_get data_dict "ops")) ;;
                      add_metric successful_ops l
                        (VJson (counter_get data_dict "successful_ops")) ;;
                      add_metric bytes_sent l (VJson (counter_get data_dict "bytes_sent")) ;;
                      add_metric bytes_received l
                        (VJson (counter_get data_dict "bytes_received"))))))
            (flat_map (usage_samples_of d) (triples d))).
  { unfold triples. rewrite flat_map_flat_map.
    apply exports_for_each. intros o. rewrite flat_map_flat_map.
    apply exports_for_each. intros b.
    rewrite flat_map_of_map.
    apply exports_for_each. intros c. apply exports_add_four. }
  destruct (Hex st m0 Hm) as (st' & R & Hm' & Hd' & Hu').
  exists st'. split; [exact R |]. split; [exact Hm' |].
  split; [rewrite Hd'; exact Hd | exact Hu'].
Qed.

Lemma samples_of_usage_samples (d : usage_dict_t) (f : family)
    (l : list (key * key * key)) :
  samples_of f (flat_map (usage_samples_of d) l)
  = if is_usage_family f then map (usage_sample d f) l else [].
Proof.
  rewrite samples_of_flat_map.
  destruct (is_usage_family f) eqn:Hf.
  - rewrite <- flat_map_singleton. apply flat_map_ext.
    intros [[o b] c]. destruct f; try discriminate; reflexivity.
  - induction l as [| [[o b] c] l IH]; simpl; [reflexivity |].
    rewrite IH. destruct f; try discriminate; reflexivity.
Qed.



(** ** Distinct keys *)

Lemma in_keys_dict_set {V} (k k0 : key) (v : V) (d : dict V) :
  In k0 (keys (dict_set k v d)) -> k0 = k \/ In k0 (keys d).
Proof.
  induction d as [| [k1 v1] d IH]; simpl.
  - intros [H | []]; auto.
  - destruct (key_eqb_spec k k1) as [-> | Hne]; simpl.
    + intros [H | H]; auto.
    + intros [H | H]; auto. destruct (IH H); auto.
Qed.

Lemma nodup_keys_dict_set {V} (k : key) (v : V) (d : dict V) :
  NoDup (keys d) -> NoDup (keys (dict_set k v d)).
Proof.
  induction d as [| [k1 v1] d IH]; simpl; intros H.
  - repeat constructor. intros [].
  - inversion H as [| ? ? Hnotin Hnd]; subst.
    destruct (key_eqb_spec k k1) as [-> | Hne]; simpl.
    + constructor; assumption.
    + constructor; [| apply IH; exact Hnd].
      intros Hin. apply in_keys_dict_set in Hin as [E | Hin]; [congruence | tauto].
Qed.

Lemma nodup_buckets_nil : nodup_buckets [].
Proof. split; [constructor | intros b; constructor]. Qed.

Lemma nodup_buckets_set (b : key) (v : dict Counter) (bd : dict (dict Counter)) :
  nodup_buckets bd -> NoDup (keys v) -> nodup_buckets (dict_set b v bd).
Proof.
  intros [Hk Hv] Hnew. split; [apply nodup_keys_dict_set; exact Hk |].
  intros b'. rewrite (@at_key_set (key * Counter) b b').
  destruct (key_eqb b' b); [exact Hnew | apply Hv].
Qed.

Lemma nodup_dict_set (o : key) (v : dict (dict Counter)) (d : usage_dict_t) :
  nodup_dict d -> nodup_buckets v -> nodup_dict (dict_set o v d).
Proof.
  intros [Hk Hv] Hnew. split; [apply nodup_keys_dict_set; exact Hk |].
  intros o'. rewrite (@at_key_set (key * dict Counter) o o').
  destruct (key_eqb o' o); [exact Hnew | apply Hv].
Qed.

Lemma nodup_dict_at (o : key) (d : usage_dict_t) :
  nodup_dict d -> nodup_buckets (at_key o d).
Proof. intros [_ H]. apply H. Qed.

Lemma nodup_dict_set_counter (o b c : key) (cnt : Counter) (d : usage_dict_t) :
  nodup_dict d -> nodup_dict (set_counter o b c cnt d).
Proof.
  intros H. unfold set_counter. apply nodup_dict_set; [exact H |].
  apply nodup_buckets_set; [apply nodup_dict_at; exact H |].
  apply nodup_keys_dict_set. apply (nodup_dict_at o H).
Qed.

Lemma keeps_nodup_frame {A} (m : M A) :
  (forall st, usage_dict (snd (m st)) = usage_dict st) -> keeps_nodup m.
Proof. intros H st Hd. rewrite H. exact Hd. Qed.

Lemma keeps_nodup_ret {A} (a : A) : keeps_nodup (ret a).
Proof. apply keeps_nodup_frame. reflexivity. Qed.

Lemma keeps_nodup_lift {A} (o : outcome A) : keeps_nodup (lift o).
Proof. apply keeps_nodup_frame. reflexivity. Qed.

Lemma keeps_nodup_print (o : output) : keeps_nodup (print o).
Proof. apply keeps_nodup_frame. reflexivity. Qed.

Lemma keeps_nodup_set (d : usage_dict_t) : nodup_dict d -> keeps_nodup (set_usage_dict d).
Proof. intros H st _. exact H. Qed.

Lemma keeps_nodup_bind {A B} (m : M A) (k : A -> M B) :
  keeps_nodup m -> (forall a, keeps_nodup (k a)) -> keeps_nodup (bind m k).
Proof.
  intros Hm Hk st Hd. unfold bind. specialize (Hm st Hd).
  destruct (m st) as [[a | e] st1]; simpl in *; [apply Hk; exact Hm | exact Hm].
Qed.

Lemma keeps_nodup_get {B} (k : usage_dict_t -> M B) :
  (forall d, nodup_dict d -> keeps_nodup (k d)) -> keeps_nodup (bind get_usage_dict k).
Proof. intros Hk st Hd. unfold bind, get_usage_dict. apply Hk; exact Hd. Qed.

Lemma keeps_nodup_when (b : bool) (m : M unit) : keeps_nodup m -> keeps_nodup (when b m).
Proof. intros H. destruct b; [exact H | apply keeps_nodup_ret]. Qed.

Lemma keeps_nodup_for_each {A} (l : list A) (body : A -> M unit) :
  (forall x, keeps_nodup (body x)) -> keeps_nodup (for_each l body).
Proof.
  intros H. induction l as [| x l IH]; simpl.
  - apply keeps_nodup_ret.
  - apply keeps_nodup_bind; [apply H | intros _; exact IH].
Qed.

Ltac keeps_nodup_step :=
  first
    [ apply keeps_nodup_ret | apply keeps_nodup_lift | apply keeps_nodup_print
    | apply keeps_nodup_get; intros
    | apply keeps_nodup_set;
      first [ apply nodup_dict_set_counter; assumption
            | apply nodup_dict_set;
              [assumption
              | first [ apply nodup_buckets_nil
                      | apply nodup_buckets_set;
                        [apply nodup_dict_at; assumption | constructor] ] ] ]
    | apply keeps_nodup_when | apply keeps_nodup_for_each; intros
    | apply keeps_nodup_bind; [| intros]
    | match goal with
      | |- keeps_nodup (if ?b then _ else _) => destruct b
      | |- keeps_nodup (let (_, _) := ?x in _) => destruct x
      end ].

Lemma keeps_nodup_get_usage (env : environment) (entry : json) :
  keeps_nodup (_get_usage env entry).
Proof.
  unfold _get_usage, usage_bucket, usage_category. repeat keeps_nodup_step.
Qed.

(** ** The parts of a cycle's metrics *)

Lemma request_data_fst_url (env : environment) (query : string)
    (args : option string) (s st : collector) :
  url s = url st ->
  fst (_request_data env query args s) = fst (_request_data env query args st).
Proof.
  intros Hu. unfold _request_data. rewrite Hu.
  destruct (requests_get env _) as [r | message]; [| reflexivity].
  destruct (status_code r =? 200).
  - unfold bind, when. destruct (DEBUG env); simpl;
      destruct (json_of r); simpl;
      try destruct (json_error_is_request_exception env); reflexivity.
  - destruct (content_utf8 r); reflexivity.
Qed.

Lemma request_data_in_cycle (env : environment) (query : string)
    (args : option string) (st s : collector) (m : metrics) :
  url s = url st ->
  _prometheus_metrics s = Some m ->
  exists r s',
    _request_data env query args s = (r, s')
    /\ url s' = url st /\ _prometheus_metrics s' = Some m
    /\ usage_dict s' = usage_dict s
    /\ r = fst (_request_data env query args st)
    /\ (fetch_fails (requests_get env (request_target (url st) query args)) = true ->
        r = Val JNull).
Proof.
  intros Hu Hm.
  pose proof (request_data_frame env query args s) as (_ & U & _ & M & D & _).
  pose proof (request_data_fst_url env query args s st Hu) as E.
  destruct (_request_data env query args s) as [r s'] eqn:R. simpl in U, M, D, E.
  exists r, s'. split; [reflexivity |]. split; [congruence |].
  split; [congruence |]. split; [exact D |]. split; [exact E |].
  intros Hf. rewrite <- Hu in Hf.
  destruct (@request_data_fails env query args s Hf) as (s2 & R2 & _).
  congruence.
Qed.

Lemma no_family_adds_nothing {A} (m : M A) (st : collector) (m0 : metrics) :
  adds_families no_family m ->
  _prometheus_metrics st = Some m0 ->
  _prometheus_metrics (snd (m st)) = Some m0.
Proof.
  intros H Hm. destruct (H st m0 Hm) as (adds & E & F).
  destruct adds; [rewrite app_nil_r in E; exact E | discriminate].
Qed.

(** What the usage part of a cycle leaves in freshly set-up metrics. *)
Lemma usage_phase_result (env : environment) (rgw_usage : json) (s : collector) :
  _prometheus_metrics s = Some [] ->
  usage_dict s = [] ->
  exists U,
    _prometheus_metrics (snd (usage_phase env rgw_usage s)) = Some U
    /\ (U = []
        \/ exists d, nodup_dict d /\ U = flat_map (usage_samples_of d) (triples d)).
Proof.
  intros Hm Hd. unfold usage_phase, when.
  destruct (py_truthy rgw_usage); [| exists []; simpl; auto].
  unfold bind at 1. unfold lift.
  destruct (obind (py_getitem rgw_usage "entries") py_iter) as [entries | e];
    [| exists []; simpl; auto].
  unfold bind at 1.
  assert (Hm1 : _prometheus_metrics (snd (for_each entries (_get_usage env) s)) = Some []).
  { apply no_family_adds_nothing; [| exact Hm].
    apply adds_families_for_each. intros x. apply adds_families_get_usage. }
  assert (Hd1 : nodup_dict (usage_dict (snd (for_each entries (_get_usage env) s)))).
  { apply keeps_nodup_for_each; [intros x; apply keeps_nodup_get_usage |].
    rewrite Hd. split; [constructor | intros o; apply nodup_buckets_nil]. }
  destruct (for_each entries (_get_usage env) s) as [[[] | e] s1]; simpl in Hm1, Hd1.
  - destruct (@update_usage_metrics_exports (usage_dict s1) s1 [] eq_refl Hm1)
      as (s2 & R & Hm2 & _).
    rewrite R. simpl. eexists. split; [exact Hm2 |]. right.
    exists (usage_dict s1). split; [exact Hd1 | reflexivity].
  - exists []. simpl. auto.
Qed.

Lemma cycle_parts (env : environment) (st : collector) :
  exists U B Q D,
    _prometheus_metrics (snd (_scrape_metrics env st)) = Some (U ++ B ++ Q ++ D)
    /\ forallb (fun fs => is_usage_family (fst fs)) U = true
    /\ forallb (fun fs => is_bucket_family (fst fs)) B = true
    /\ forallb (fun fs => is_quota_family (fst fs)) Q = true
    /\ ((D = [duration_sample env] /\ fst (_scrape_metrics env st) = Val tt)
        \/ (D = [] /\ fst (_scrape_metrics env st) <> Val tt))
    /\ (fetch_fails (requests_get env
                       (request_target (url st) "usage" (Some "show-summary=False")))
        = true -> U = [])
    /\ (fetch_fails (requests_get env
                       (request_target (url st) "bucket" (Some "stats=True")))
        = true -> B = [])
    /\ (fetch_fails (requests_get env
                       (request_target (url st) "metadata/user" None))
        = true -> Q = [])
    /\ (U = []
        \/ exists d, nodup_dict d /\ U = flat_map (usage_samples_of d) (triples d))
    /\ (forall rgw_usage,
          fst (_request_data env "usage" (Some "show-summary=False") st)
          = Val rgw_usage ->
          (forall e, fst (_request_data env "bucket" (Some "stats=True") st) <> Exc e) ->
          (forall e, fst (_request_data env "metadata/user" None st) <> Exc e) ->
          exists s,
            _prometheus_metrics s = Some [] /\ usage_dict s = []
            /\ _prometheus_metrics (snd (usage_phase env rgw_usage s)) = Some U).
Proof.
  set (s1 := snd (set_usage_dict [] (snd (set_metrics [] st)))).
  assert (Hrun : _scrape_metrics env st
                 = (rgw_usage <- _request_data env "usage" (Some "show-summary=False") ;;
                    rgw_bucket <- _request_data env "bucket" (Some "stats=True") ;;
                    rgw_users <- _get_users_ids env ;;
                    usage_phase env rgw_usage ;;
                    when (py_truthy rgw_bucket)
                      (buckets <- lift (py_iter rgw_bucket) ;;
                       for_each buckets (_get_bucket_usage env)) ;;
                    when (py_truthy rgw_users)
                      (users <- lift (py_iter rgw_users) ;;
                       for_each users (_get_user_quota env)) ;;
                    add_metric scrape_duration_seconds []
                      (VFloat (Qminus (time_end env) (time_start env)))) s1)
    by reflexivity.
  rewrite Hrun. clear Hrun.
  assert (Hu1 : url s1 = url st) by reflexivity.
  assert (Hm1 : _prometheus_metrics s1 = Some []) by reflexivity.
  assert (Hd1 : usage_dict s1 = []) by reflexivity.
  clearbody s1.
  match goal with
  | |- context [snd (?run s1)] => destruct (run s1) as [res sf] eqn:Hres
  end.
  simpl fst. simpl snd.
  set (KU := fun U : metrics =>
    (fetch_fails (requests_get env
       (request_target (url st) "usage" (Some "show-summary=False"))) = true -> U = [])
    /\ (U = []
        \/ exists d, nodup_dict d /\ U = flat_map (usage_samples_of d) (triples d))
    /\ (forall rgw_usage,
          fst (_request_data env "usage" (Some "show-summary=False") st)
          = Val rgw_usage ->
          (forall e, fst (_request_data env "bucket" (Some "stats=True") st) <> Exc e) ->
          (forall e, fst (_request_data env "metadata/user" None st) <> Exc e) ->
          exists s,
            _prometheus_metrics s = Some [] /\ usage_dict s = []
            /\ _prometheus_metrics (snd (usage_phase env rgw_usage s)) = Some U)).
  (* what an aborted cycle leaves *)
  assert (Hstop : forall (U B Q : metrics) (e : exn) (s : collector),
            (@Exc unit e, s) = (res, sf) ->
            _prometheus_metrics s = Some (U ++ B ++ Q) ->
            forallb (fun fs => is_usage_family (fst fs)) U = true ->
            forallb (fun fs => is_bucket_family (fst fs)) B = true ->
            forallb (fun fs => is_quota_family (fst fs)) Q = true ->
            KU U ->
            (fetch_fails (requests_get env
               (request_target (url st) "bucket" (Some "stats=True"))) = true ->
             B = []) ->
            (fetch_fails (requests_get env
               (request_target (url st) "metadata/user" None)) = true -> Q = []) ->
            exists U' B' Q' D,
              _prometheus_metrics sf = Some (U' ++ B' ++ Q' ++ D)
              /\ forallb (fun fs => is_usage_family (fst fs)) U' = true
              /\ forallb (fun fs => is_bucket_family (fst fs)) B' = true
              /\ forallb (fun fs => is_quota_family (fst fs)) Q' = true
              /\ ((D = [duration_sample env] /\ res = Val tt)
                  \/ (D = [] /\ res <> Val tt))
              /\ (fetch_fails (requests_get env
                    (request_target (url st) "usage" (Some "show-summary=False")))
                  = true -> U' = [])
              /\ (fetch_fails (requests_get env
                    (request_target (url st) "bucket" (Some "stats=True")))
                  = true -> B' = [])
              /\ (fetch_fails (requests_get env
                    (request_target (url st) "metadata/user" None))
                  = true -> Q' = [])
              /\ (U' = []
                  \/ exists d,
                       nodup_dict d /\ U' = flat_map (usage_samples_of d) (triples d))
              /\ (forall rgw_usage,
                    fst (_request_data env "usage" (Some "show-summary=False") st)
                    = Val rgw_usage ->
                    (forall e, fst (_request_data env "bucket" (Some "stats=True") st)
                               <> Exc e) ->
                    (forall e, fst (_request_data env "metadata/user" None st)
                               <> Exc e) ->
                    exists s,
                      _prometheus_metrics s = Some [] /\ usage_dict s = []
                      /\ _prometheus_metrics (snd (usage_phase env rgw_usage s))
                         = Some U')).
  { intros U B Q e s E Hm HU HB HQ (FU & K1 & K2) FB FQ. injection E as <- <-.
    exists U, B, Q, []. rewrite app_nil_r.
    split; [exact Hm |]. split; [exact HU |]. split; [exact HB |].
    split; [exact HQ |]. split; [right; split; [reflexivity | discriminate] |].
    split; [exact FU |]. split; [exact FB |]. split; [exact FQ |].
    split; [exact K1 | exact K2]. }
  destruct (@request_data_in_cycle env "usage" (Some "show-summary=False") st s1 []
              Hu1 Hm1) as (r1 & s2 & R1 & Hu2 & Hm2 & Hd2 & E1 & F1).
  unfold bind at 1 in Hres. rewrite R1 in Hres.
  destruct r1 as [rgw_usage | e]; cbv beta iota in Hres.
  2: { apply (Hstop [] [] [] e s2); auto.
       split; [auto |]. split; [auto |].
       intros v Hv _ _. rewrite Hv in E1. discriminate. }
  destruct (@request_data_in_cycle env "bucket" (Some "stats=True") st s2 []
              Hu2 Hm2) as (r2 & s3 & R2 & Hu3 & Hm3 & Hd3 & E2 & F2).
  unfold bind at 1 in Hres. rewrite R2 in Hres.
  destruct r2 as [rgw_bucket | e]; cbv beta iota in Hres.
  2: { apply (Hstop [] [] [] e s3); auto.
       split; [auto |]. split; [auto |].
       intros v _ Hb _. exfalso. apply (Hb e). symmetry. exact E2. }
  destruct (@request_data_in_cycle env "metadata/user" None st s3 []
              Hu3 Hm3) as (r3 & s4 & R3 & Hu4 & Hm4 & Hd4 & E3 & F3).
  unfold bind at 1 in Hres. unfold _get_users_ids in Hres. rewrite R3 in Hres.
  destruct r3 as [rgw_users | e]; cbv beta iota in Hres.
  2: { apply (Hstop [] [] [] e s4); auto.
       split; [auto |]. split; [auto |].
       intros v _ _ Hb. exfalso. apply (Hb e). symmetry. exact E3. }
  (* the usage part *)
  assert (Hd4' : usage_dict s4 = []) by congruence.
  destruct (@adds_families_usage_phase env rgw_usage s4 [] Hm4) as (U & HmU & HU).
  fold (usage_phase env rgw_usage) in HmU. simpl app in HmU.
  assert (HKU : KU U).
  { split; [| split].
    - intros Hf. specialize (F1 Hf). injection F1 as ->.
      simpl in HmU. rewrite Hm4 in HmU. injection HmU as <-. reflexivity.
    - destruct (@usage_phase_result env rgw_usage s4 Hm4 Hd4') as (U' & HmU' & HK).
      rewrite HmU in HmU'. injection HmU' as <-. exact HK.
    - intros v Hv _ _. rewrite Hv in E1. injection E1 as ->.
      exists s4. auto. }
  unfold bind at 1 in Hres.
  destruct (usage_phase env rgw_usage s4) as [[[] | e] s5]; simpl in HmU;
    cbv beta iota in Hres.
  2: { apply (Hstop U [] [] e s5); auto; try (intros; reflexivity).
       rewrite !app_nil_r. exact HmU. }
  (* the bucket part *)
  destruct (@adds_families_bucket_phase env rgw_bucket s5 _ HmU) as (B & HmB & HB).
  assert (FB : fetch_fails (requests_get env
                 (request_target (url st) "bucket" (Some "stats=True"))) = true ->
               B = []).
  { intros Hf. specialize (F2 Hf). injection F2 as ->.
    simpl in HmB. rewrite HmU in HmB. injection HmB as E.
    apply (f_equal (@List.length _)) in E. rewrite !length_app in E.
    destruct B; [reflexivity | simpl in E; lia]. }
  unfold bind at 1 in Hres.
  destruct (when (py_truthy rgw_bucket) _ s5) as [[[] | e] s6]; simpl in HmB;
    cbv beta iota in Hres.
  2: { apply (Hstop U B [] e s6); auto; try (intros; reflexivity).
       rewrite app_nil_r. exact HmB. }
  (* the quota part *)
  destruct (@adds_families_user_phase env rgw_users s6 _ HmB) as (Q & HmQ & HQ).
  assert (FQ : fetch_fails (requests_get env
                 (request_target (url st) "metadata/user" None)) = true ->
               Q = []).
  { intros Hf. specialize (F3 Hf). injection F3 as ->.
    simpl in HmQ. rewrite HmB in HmQ. injection HmQ as E.
    apply (f_equal (@List.length _)) in E. rewrite !length_app in E.
    destruct Q; [reflexivity | simpl in E; lia]. }
  unfold bind at 1 in Hres.
  destruct (when (py_truthy rgw_users) _ s6) as [[[] | e] s7]; simpl in HmQ;
    cbv beta iota in Hres.
  2: { apply (Hstop U B Q e s7); auto. rewrite <- app_assoc in HmQ. exact HmQ. }
  (* the duration *)
  unfold add_metric in Hres. rewrite HmQ in Hres. simpl in Hres.
  injection Hres as <- <-. simpl.
  exists U, B, Q, [duration_sample env].
  split; [unfold duration_sample; rewrite <- !app_assoc; reflexivity |].
  destruct HKU as (FU & K1 & K2).
  split; [exact HU |]. split; [exact HB |]. split; [exact HQ |].
  split; [left; split; reflexivity |].
  split; [exact FU |]. split; [exact FB |]. split; [exact FQ |].
  split; [exact K1 | exact K2].
Qed.

Lemma samples_of_outside (f : family) (P : family -> bool) (m : metrics) :
  forallb (fun fs => P (fst fs)) m = true ->
  P f = false ->
  samples_of f m = [].
Proof.
  intros Hall Hf. unfold samples_of.
  induction m as [| [g s] m IH]; simpl in *; [reflexivity |].
  apply andb_prop in Hall as [Hg Hall].
  destruct (family_eqb f g) eqn:E.
  - assert (f = g) by (destruct f, g; simpl in E; congruence).
    subst g. congruence.
  - apply IH. exact Hall.
Qed.

(** X12: the duration of a cycle is exported exactly when the cycle ran to
    its end: a completed cycle leaves one sample in
    [scrape_duration_seconds], the difference of the two clock readings,
    with no label; a cycle that an exception cut short leaves none. *)
Theorem cycle_duration_sample (env : environment) (st : collector) :
  (fst (_scrape_metrics env st) = Val tt ->
   samples scrape_duration_seconds (snd (_scrape_metrics env st))
   = [Sample [] (VFloat (Qminus (time_end env) (time_start env)))])
  /\ (fst (_scrape_metrics env st) <> Val tt ->
      samples scrape_duration_seconds (snd (_scrape_metrics env st)) = []).
Proof.
  destruct (cycle_parts env st) as (U & B & Q & D & Hm & HU & HB & HQ & HD & _).
  assert (Hs : samples scrape_duration_seconds (snd (_scrape_metrics env st))
               = samples_of scrape_duration_seconds D).
  { unfold samples. rewrite Hm. rewrite !samples_of_app.
    rewrite (@samples_of_outside scrape_duration_seconds is_usage_family U HU eq_refl),
      (@samples_of_outside scrape_duration_seconds is_bucket_family B HB eq_refl),
      (@samples_of_outside scrape_duration_seconds is_quota_family Q HQ eq_refl).
    reflexivity. }
  rewrite Hs. split; intros H; destruct HD as [[-> H'] | [-> H']];
    try reflexivity; contradiction.
Qed.

Lemma cycle_duration_sample_witness :
  samples scrape_duration_seconds
    (snd (_scrape_metrics env_quota_down (__init__ "http://rgw" "admin" 60)))
  = []
  /\ samples scrape_duration_seconds
       (snd (_scrape_metrics env_full (__init__ "http://rgw" "admin" 60)))
     = [Sample [] (VFloat (Qminus (time_end env_full) (time_start env_full)))].
Proof.
  split.
  - apply (proj2 (@cycle_duration_sample env_quota_down
                    (__init__ "http://rgw" "admin" 60))).
    vm_compute. discriminate.
  - apply (proj1 (@cycle_duration_sample env_full
                    (__init__ "http://rgw" "admin" 60))).
    vm_compute. reflexivity.
Defined.

(** X13: each of the three sources feeds its own families and no other.
    When the usage query fails, the four usage families stay empty; when
    the bucket query fails, the five bucket families stay empty; when the
    query for the user list fails, the three quota families stay empty:
    whatever the other two sources answer, and whether the cycle ends
    normally or not. *)
Theorem failed_source_leaves_its_families_empty (env : environment)
    (st : collector) (f : family) :
  (fetch_fails (requests_get env
                  (request_target (url st) "usage" (Some "show-summary=False")))
   = true ->
   is_usage_family f = true ->
   samples f (snd (_scrape_metrics env st)) = [])
  /\ (fetch_fails (requests_get env
                     (request_target (url st) "bucket" (Some "stats=True")))
      = true ->
      is_bucket_family f = true ->
      samples f (snd (_scrape_metrics env st)) = [])
  /\ (fetch_fails (requests_get env
                     (request_target (url st) "metadata/user" None))
      = true ->
      is_quota_family f = true ->
      samples f (snd (_scrape_metrics env st)) = []).
Proof.
  destruct (cycle_parts env st)
    as (U & B & Q & D & Hm & HU & HB & HQ & HD & FU & FB & FQ & _).
  assert (HDf : forall g, g <> scrape_duration_seconds -> samples_of g D = []).
  { intros g Hg. destruct HD as [[-> _] | [-> _]]; [| reflexivity].
    destruct g; try reflexivity. congruence. }
  unfold samples. rewrite Hm. rewrite !samples_of_app.
  split; [| split]; intros Hf Hfam.
  - rewrite (FU Hf). simpl.
    rewrite (@samples_of_outside f is_bucket_family B HB),
      (@samples_of_outside f is_quota_family Q HQ), HDf;
      try reflexivity; destruct f; try discriminate; reflexivity.
  - rewrite (FB Hf). simpl.
    rewrite (@samples_of_outside f is_usage_family U HU),
      (@samples_of_outside f is_quota_family Q HQ), HDf;
      try reflexivity; destruct f; try discriminate; reflexivity.
  - rewrite (FQ Hf). simpl.
    rewrite (@samples_of_outside f is_usage_family U HU),
      (@samples_of_outside f is_bucket_family B HB), HDf;
      try reflexivity; destruct f; try discriminate; reflexivity.
Qed.

Lemma failed_source_leaves_its_families_empty_witness :
  samples ops (snd (_scrape_metrics env_no_usage_log (__init__ "http://rgw" "admin" 60)))
  = []
  /\ samples bucket_usage_bytes
       (snd (_scrape_metrics (env_alice 1000 250) (__init__ "http://rgw" "admin" 60)))
     = []
  /\ samples user_quota_limit
       (snd (_scrape_metrics env_created (__init__ "http://rgw" "admin" 60)))
     = [].
Proof.
  split; [| split].
  - apply (proj1 (@failed_source_leaves_its_families_empty env_no_usage_log
                    (__init__ "http://rgw" "admin" 60) ops)); reflexivity.
  - apply (proj1 (proj2 (@failed_source_leaves_its_families_empty (env_alice 1000 250)
                           (__init__ "http://rgw" "admin" 60) bucket_usage_bytes)));
      reflexivity.
  - apply (proj2 (proj2 (@failed_source_leaves_its_families_empty env_created
                           (__init__ "http://rgw" "admin" 60) user_quota_limit)));
      reflexivity.
Defined.

(** ** Serving the metrics *)

(** X14: [collect] raises [AttributeError] on a collector whose thread has
    not yet set up the metrics, and never again afterwards: once a cycle
    has begun, whether it ended normally or not, [collect] returns the
    thirteen families in their fixed order, each with the samples it holds,
    and changes nothing. *)
Theorem collect_before_and_after (env : environment) (st : collector)
    (host0 admin_entry : string) (interval0 : Z) :
  fst (collect (__init__ host0 admin_entry interval0))
  = Exc (AttributeError "_prometheus_metrics")
  /\ exists served,
       collect (snd (_scrape_metrics env st))
       = (Val served, snd (_scrape_metrics env st))
       /\ map fst served = families
       /\ forall f, In (f, samples f (snd (_scrape_metrics env st))) served.
Proof.
  split; [reflexivity |].
  destruct (cycle_parts env st) as (U & B & Q & D & Hm & _).
  exists (snapshot (U ++ B ++ Q ++ D)).
  split; [apply collect_reads_snapshot; exact Hm |].
  split; [reflexivity |].
  intros f. unfold samples. rewrite Hm. unfold snapshot.
  apply (in_map (fun g => (g, samples_of g (U ++ B ++ Q ++ D)))).
  destruct f; simpl; auto 15.
Qed.

(** ** The polling loop *)

Lemma scrape_metrics_same_url (env : environment) (a b : collector) :
  url a = url b ->
  fst (_scrape_metrics env a) = fst (_scrape_metrics env b)
  /\ agree (snd (_scrape_metrics env a)) (snd (_scrape_metrics env b)).
Proof.
  intros Hu.
  set (a0 := snd (set_usage_dict [] (snd (set_metrics [] a)))).
  set (b0 := snd (set_usage_dict [] (snd (set_metrics [] b)))).
  assert (Ha : _scrape_metrics env a = scrape_after_setup env a0) by reflexivity.
  assert (Hb : _scrape_metrics env b = scrape_after_setup env b0) by reflexivity.
  rewrite Ha, Hb. apply (proj2 (respects_scrape_after_setup env)).
  unfold agree. simpl. auto.
Qed.

Lemma scrape_loop_app (l1 l2 : list environment) (st : collector) :
  _scrape_loop (l1 ++ l2) st
  = match _scrape_loop l1 st with
    | (Val _, st') => _scrape_loop l2 st'
    | (Exc e, st') => (Exc e, st')
    end.
Proof.
  revert st. induction l1 as [| env l1 IH]; intros st; simpl.
  - reflexivity.
  - unfold bind. destruct (_scrape_metrics env st) as [[[] | e] s]; [apply IH | reflexivity].
Qed.

Lemma scrape_loop_url (l : list environment) (st : collector) :
  url (snd (_scrape_loop l st)) = url st.
Proof.
  revert st. induction l as [| env l IH]; intros st; simpl; [reflexivity |].
  unfold bind. pose proof (proj1 (respects_scrape_metrics env) st) as U.
  destruct (_scrape_metrics env st) as [[[] | e] s]; simpl in *.
  - rewrite IH. exact U.
  - exact U.
Qed.

(** X15: the loop serves the latest cycle and nothing older: after any
    number of completed cycles, one more cycle ends as it would on a new
    collector with the same admin URL, with the same metrics.  An
    exception ends the loop: the cycles that were to follow do not run and
    the metrics stay as the failed cycle left them. *)
Theorem scrape_loop_latest_cycle (cycles : list environment)
    (env : environment) (later : list environment) (st : collector) :
  (fst (_scrape_loop cycles st) = Val tt ->
   fst (_scrape_loop (cycles ++ [env]) st) = fst (_scrape_metrics env st)
   /\ _prometheus_metrics (snd (_scrape_loop (cycles ++ [env]) st))
      = _prometheus_metrics (snd (_scrape_metrics env st)))
  /\ (fst (_scrape_loop cycles st) <> Val tt ->
      _scrape_loop (cycles ++ later) st = _scrape_loop cycles st).
Proof.
  split.
  - intros Hok. rewrite scrape_loop_app.
    pose proof (scrape_loop_url cycles st) as Hu.
    destruct (_scrape_loop cycles st) as [[[] | e] s]; simpl in Hok, Hu;
      [| discriminate].
    destruct (scrape_metrics_same_url env s st Hu) as (E & _ & Hm & _).
    simpl. unfold bind.
    destruct (_scrape_metrics env s) as [[[] | e] s'];
      simpl in *; rewrite <- E; auto.
  - intros Hbad. rewrite scrape_loop_app.
    destruct (_scrape_loop cycles st) as [[[] | e] s]; simpl in Hbad;
      [contradiction | reflexivity].
Qed.

Lemma scrape_loop_latest_cycle_witness :
  (fst (_scrape_loop ([env_full; env_no_usage_log] ++ [env_full])
          (__init__ "http://rgw" "admin" 60))
   = fst (_scrape_metrics env_full (__init__ "http://rgw" "admin" 60))
   /\ _prometheus_metrics
        (snd (_scrape_loop ([env_full; env_no_usage_log] ++ [env_full])
                (__init__ "http://rgw" "admin" 60)))
      = _prometheus_metrics
          (snd (_scrape_metrics env_full (__init__ "http://rgw" "admin" 60))))
  /\ _scrape_loop ([env_quota_down] ++ [env_full]) (__init__ "http://rgw" "admin" 60)
     = _scrape_loop [env_quota_down] (__init__ "http://rgw" "admin" 60).
Proof.
  split.
  - apply (proj1 (@scrape_loop_latest_cycle [env_full; env_no_usage_log] env_full []
                    (__init__ "http://rgw" "admin" 60))).
    vm_compute. reflexivity.
  - apply (proj2 (@scrape_loop_latest_cycle [env_quota_down] env_full [env_full]
                    (__init__ "http://rgw" "admin" 60))).
    vm_compute. discriminate.
Defined.

(** *** Distinct labels *)

Lemma nodup_app {A} (l1 l2 : list A) :
  NoDup l1 -> NoDup l2 -> (forall x, In x l1 -> In x l2 -> False) ->
  NoDup (l1 ++ l2).
Proof.
  intros H1 H2 Hsep. induction H1 as [| x l Hx Hl IH]; simpl; [exact H2 |].
  constructor.
  - intros Hin. apply in_app_or in Hin. destruct Hin as [Hin | Hin].
    + exact (Hx Hin).
    + apply (Hsep x); [left; reflexivity | exact Hin].
  - apply IH. intros y Hy Hy'. apply (Hsep y); [right; exact Hy | exact Hy'].
Qed.

Lemma nodup_flat_map {A B} (g : A -> list B) (l : list A) :
  NoDup l ->
  (forall a, NoDup (g a)) ->
  (forall a b x, In x (g a) -> In x (g b) -> a = b) ->
  NoDup (flat_map g l).
Proof.
  intros Hl Hg Hsep. induction Hl as [| a l Ha Hl IH]; simpl; [constructor |].
  apply nodup_app; [apply Hg | exact IH |].
  intros x Hx Hin. apply in_flat_map in Hin. destruct Hin as (b & Hb & Hxb).
  assert (a = b) by (apply (Hsep a b x); [exact Hx | exact Hxb]).
  subst b. exact (Ha Hb).
Qed.

Lemma nodup_map_inj {A B} (h : A -> B) (l : list A) :
  (forall a b, h a = h b -> a = b) -> NoDup l -> NoDup (map h l).
Proof.
  intros Hinj Hl. induction Hl as [| a l Ha Hl IH]; simpl; constructor.
  - intros Hin. apply in_map_iff in Hin. destruct Hin as (b & E & Hb).
    apply Hinj in E. subst b. exact (Ha Hb).
  - exact IH.
Qed.

Lemma nodup_triples (d : usage_dict_t) : nodup_dict d -> NoDup (triples d).
Proof.
  intros [Hd Hb]. unfold triples.
  apply nodup_flat_map; [exact Hd | |].
  - intros o. destruct (Hb o) as [Ho Hc].
    apply nodup_flat_map; [exact Ho | |].
    + intros b. apply nodup_map_inj; [| apply Hc].
      intros c c' E. injection E as <-. reflexivity.
    + intros b b' x Hx Hx'. apply in_map_iff in Hx. apply in_map_iff in Hx'.
      destruct Hx as (c & <- & _). destruct Hx' as (c' & E & _).
      injection E as <- _. reflexivity.
  - intros o o' x Hx Hx'. apply in_flat_map in Hx. apply in_flat_map in Hx'.
    destruct Hx as (b & _ & Hx). destruct Hx' as (b' & _ & Hx').
    apply in_map_iff in Hx. apply in_map_iff in Hx'.
    destruct Hx as (c & <- & _). destruct Hx' as (c' & E & _).
    injection E as <- _ _. reflexivity.
Qed.

Lemma json_of_key_inj (a b : key) : json_of_key a = json_of_key b -> a = b.
Proof. destruct a, b; simpl; intros E; try discriminate; congruence. Qed.

Lemma usage_labels_inj (t t' : key * key * key) :
  usage_labels t = usage_labels t' -> t = t'.
Proof.
  destruct t as [[o b] c], t' as [[o' b'] c']. simpl. intros E.
  injection E as Eb Eo Ec.
  apply json_of_key_inj in Eb. apply json_of_key_inj in Eo.
  apply json_of_key_inj in Ec. subst. reflexivity.
Qed.

Lemma labels_usage_sample (d : usage_dict_t) (f : family) (l : list (key * key * key)) :
  map labels (map (usage_sample d f) l) = map usage_labels l.
Proof.
  rewrite map_map. apply map_ext. intros [[o b] c]. reflexivity.
Qed.

(** The samples of a usage family that a cycle leaves are those of its
    usage part. *)
Lemma cycle_usage_part (env : environment) (st : collector) :
  exists U,
    (forall f, is_usage_family f = true ->
               samples f (snd (_scrape_metrics env st)) = samples_of f U)
    /\ (U = []
        \/ exists d, nodup_dict d /\ U = flat_map (usage_samples_of d) (triples d))
    /\ (forall rgw_usage,
          fst (_request_data env "usage" (Some "show-summary=False") st)
          = Val rgw_usage ->
          (forall e, fst (_request_data env "bucket" (Some "stats=True") st) <> Exc e) ->
          (forall e, fst (_request_data env "metadata/user" None st) <> Exc e) ->
          exists s,
            _prometheus_metrics s = Some [] /\ usage_dict s = []
            /\ _prometheus_metrics (snd (usage_phase env rgw_usage s)) = Some U).
Proof.
  destruct (cycle_parts env st)
    as (U & B & Q & D & Hm & HU & HB & HQ & HD & _ & _ & _ & K1 & K2).
  exists U. split; [| split; [exact K1 | exact K2]].
  intros f Hf. unfold samples. rewrite Hm, !samples_of_app.
  assert (HDf : samples_of f D = []).
  { destruct HD as [[-> _] | [-> _]]; [| reflexivity].
    destruct f; try discriminate; reflexivity. }
  rewrite HDf.
  rewrite (@samples_of_outside f is_bucket_family B HB)
    by (destruct f; try discriminate; reflexivity).
  rewrite (@samples_of_outside f is_quota_family Q HQ)
    by (destruct f; try discriminate; reflexivity).
  rewrite !app_nil_r. reflexivity.
Qed.

(** X17: in the metrics that a cycle leaves, whether it completes or is
    cut short, no usage family holds two samples with the same labels
    (bucket, owner, category): each key of the usage dictionary is
    exported once. *)
Theorem cycle_usage_labels_distinct (env : environment) (st : collector)
    (f : family) :
  is_usage_family f = true ->
  NoDup (map labels (samples f (snd (_scrape_metrics env st)))).
Proof.
  intros Hf.
  destruct (cycle_usage_part env st) as (U & HU & HK & _).
  rewrite (HU f Hf).
  destruct HK as [-> | (d & Hd & ->)]; [constructor |].
  rewrite samples_of_usage_samples, Hf, labels_usage_sample.
  apply nodup_map_inj; [exact usage_labels_inj | apply nodup_triples; exact Hd].
Qed.

Lemma cycle_usage_labels_distinct_witness :
  NoDup (map labels (samples ops (snd (_scrape_metrics env_full st_ready)))).
Proof.
  apply (@cycle_usage_labels_distinct env_full st_ready ops). reflexivity.
Defined.

(** *** From the usage log to the exported counters *)

Lemma usage_only_ret {A} (a : A) : usage_only (ret a).
Proof. intros st1 st2 H. split; [reflexivity | exact H]. Qed.

Lemma usage_only_raise {A} (e : exn) : usage_only (@raise A e).
Proof. intros st1 st2 H. split; [reflexivity | exact H]. Qed.

Lemma usage_only_lift {A} (o : outcome A) : usage_only (lift o).
Proof. intros st1 st2 H. split; [reflexivity | exact H]. Qed.

Lemma usage_only_print (o : output) : usage_only (print o).
Proof. intros st1 st2 H. split; [reflexivity | exact H]. Qed.

Lemma usage_only_get_usage_dict : usage_only get_usage_dict.
Proof. intros st1 st2 H. simpl. rewrite H. split; reflexivity. Qed.

Lemma usage_only_set_usage_dict (d : usage_dict_t) : usage_only (set_usage_dict d).
Proof. intros st1 st2 H. split; reflexivity. Qed.

Lemma usage_only_bind {A B} (m : M A) (k : A -> M B) :
  usage_only m -> (forall a, usage_only (k a)) -> usage_only (bind m k).
Proof.
  intros Hm Hk st1 st2 H. unfold bind. specialize (Hm st1 st2 H).
  destruct (m st1) as [[a1 | e1] s1], (m st2) as [[a2 | e2] s2];
    simpl in Hm; destruct Hm as [E Hs]; try discriminate.
  - injection E as <-. apply Hk. exact Hs.
  - injection E as <-. split; [reflexivity | exact Hs].
Qed.

Lemma usage_only_when (b : bool) (m : M unit) : usage_only m -> usage_only (when b m).
Proof. intros H. destruct b; [exact H | apply usage_only_ret]. Qed.

Lemma usage_only_for_each {A} (l : list A) (body : A -> M unit) :
  (forall x, usage_only (body x)) -> usage_only (for_each l body).
Proof.
  intros H. induction l as [| x l IH]; simpl.
  - apply usage_only_ret.
  - apply usage_only_bind; [apply H | intros _; exact IH].
Qed.

Ltac usage_only_step :=
  first
    [ apply usage_only_ret | apply usage_only_raise | apply usage_only_lift
    | apply usage_only_print | apply usage_only_get_usage_dict
    | apply usage_only_set_usage_dict
    | apply usage_only_when | apply usage_only_for_each; intros
    | apply usage_only_bind; [| intros]
    | match goal with
      | |- usage_only (if ?b then _ else _) => destruct b
      | |- usage_only (let (_, _) := ?x in _) => destruct x
      end ].





(** *** Label values and label names *)

Lemma adds_samples_frame {A} (P : family * sample -> bool) (m : M A) :
  (forall st, _prometheus_metrics (snd (m st)) = _prometheus_metrics st) ->
  adds_samples P m.
Proof.
  intros H st m0 Hm. exists []. rewrite H, app_nil_r. split; [exact Hm | reflexivity].
Qed.

Lemma adds_samples_add_metric (P : family * sample -> bool) (f : family)
    (l : list json) (v : value) :
  P (f, Sample l v) = true -> adds_samples P (add_metric f l v).
Proof.
  intros Hf st m0 Hm. unfold add_metric. rewrite Hm. simpl.
  exists [(f, Sample l v)]. split; [reflexivity |]. simpl. rewrite Hf. reflexivity.
Qed.

Lemma adds_samples_bind {A B} (P : family * sample -> bool) (m : M A) (k : A -> M B) :
  adds_samples P m -> (forall a, adds_samples P (k a)) ->
  adds_samples P (bind m k).
Proof.
  intros Hm Hk st m0 H0.
  destruct (Hm st m0 H0) as (a1 & E1 & F1).
  unfold bind. destruct (m st) as [[a | e] st1]; simpl in *.
  - destruct (Hk a st1 _ E1) as (a2 & E2 & F2).
    exists (a1 ++ a2). rewrite app_assoc. split; [exact E2 |].
    rewrite forallb_app, F1, F2. reflexivity.
  - exists a1. split; assumption.
Qed.

Lemma adds_samples_for_each {A} (P : family * sample -> bool) (l : list A)
    (body : A -> M unit) :
  (forall x, adds_samples P (body x)) -> adds_samples P (for_each l body).
Proof.
  intros H. induction l as [| x l IH]; simpl.
  - apply adds_samples_frame. reflexivity.
  - apply adds_samples_bind; [apply H | intros _; exact IH].
Qed.

Ltac adds_samples_step :=
  first
    [ apply adds_samples_add_metric; reflexivity
    | apply adds_samples_for_each; intros
    | apply adds_samples_bind; [| intros]
    | apply adds_samples_frame; reflexivity
    | apply adds_samples_frame; intros; apply request_data_frame
    | match goal with
      | |- adds_samples _ (when ?b _) => destruct b; unfold when
      | |- adds_samples _ (if ?b then _ else _) => destruct b
      | |- adds_samples _ (let (_, _) := ?x in _) => destruct x
      end ].

Lemma fits_family_scrape_after_setup (env : environment) :
  adds_samples fits_family (scrape_after_setup env).
Proof.
  unfold scrape_after_setup, _get_users_ids, _update_usage_metrics,
    _get_usage, usage_bucket, usage_category, _get_bucket_usage,
    _get_user_quota, _get_quota_by_project, _get_user_info.
  repeat adds_samples_step.
Qed.

(** X19: every sample that a cycle leaves, whether the cycle completes or
    is cut short, carries exactly one label value for each label name that
    [_setup_empty_prometheus_metrics] declares for its family: three for
    the usage and the bucket families, two for the quota families, none
    for the duration. *)
Theorem cycle_samples_fit_their_family (env : environment) (st : collector)
    (f : family) :
  Forall (fun s => List.length (labels s) = List.length (label_names f))
    (samples f (snd (_scrape_metrics env st))).
Proof.
  destruct (@fits_family_scrape_after_setup env (snd (set_metrics [] st)) []
              eq_refl) as (adds & Hm & Hall).
  change (snd (scrape_after_setup env (snd (set_metrics [] st))))
    with (snd (_scrape_metrics env st)) in Hm.
  unfold samples. rewrite Hm. simpl app. clear Hm.
  unfold samples_of.
  induction adds as [| [g s] adds IH]; simpl; [constructor |].
  simpl in Hall. apply andb_prop in Hall as [Hg Hall].
  destruct (family_eqb f g) eqn:E.
  - assert (f = g) by (destruct f, g; simpl in E; congruence). subst g.
    simpl. constructor; [| apply IH; exact Hall].
    unfold fits_family in Hg. simpl in Hg. apply Nat.eqb_eq in Hg. exact Hg.
  - simpl. apply IH. exact Hall.
Qed.

(** *** Buckets without a name *)

Lemma usage_only_usage_bucket_named (bucket_owner bucket_name : json)
    (categories : outcome (list json)) :
  usage_only
    (o <- lift (as_key bucket_owner) ;;
     d <- get_usage_dict ;;
     when (not_in_keys bucket_name (at_key o d))
       (bk <- lift (as_key bucket_name) ;;
        set_usage_dict (dict_set o (dict_set bk [] (at_key o d)) d)) ;;
     categories <- lift categories ;;
     for_each categories (usage_category o bucket_name)).
Proof. unfold usage_category. repeat usage_only_step. Qed.

(** [usage_bucket] once the name of the bucket is known. *)
Lemma usage_bucket_named (env : environment) (bucket_owner : json)
    (bucket : list (string * json)) (name : json) (st : collector) :
  lookup "bucket" bucket = Some name ->
  usage_bucket env bucket_owner (JDict bucket) st
  = (o <- lift (as_key bucket_owner) ;;
     d <- get_usage_dict ;;
     when (not_in_keys (if negb (py_truthy name) then JStr "bucket_root" else name)
             (at_key o d))
       (bk <- lift (as_key (if negb (py_truthy name) then JStr "bucket_root"
                            else name)) ;;
        set_usage_dict (dict_set o (dict_set bk [] (at_key o d)) d)) ;;
     categories <- lift (obind (py_getitem (JDict bucket) "categories") py_iter) ;;
     for_each categories
       (usage_category o (if negb (py_truthy name) then JStr "bucket_root" else name)))
      (snd (when (DEBUG env) (print (DebugJson (JDict bucket))) st)).
Proof.
  intros Hn. unfold usage_bucket. unfold bind at 1.
  destruct (DEBUG env); unfold when, print, ret; cbv beta iota;
    unfold bind at 1; unfold lift at 1; simpl py_getitem; rewrite Hn;
    reflexivity.
Qed.

(** X20: a bucket of the usage log whose name is empty (or otherwise
    falsy) is merged exactly as a bucket named [bucket_root] with the same
    categories: both give the same outcome and the same usage dictionary,
    so their counters end up under one key. *)
Theorem unnamed_bucket_is_bucket_root (env : environment) (bucket_owner : json)
    (bucket bucket' : list (string * json)) (name : json) (st : collector) :
  lookup "bucket" bucket = Some name ->
  py_truthy name = false ->
  lookup "bucket" bucket' = Some (JStr "bucket_root") ->
  lookup "categories" bucket' = lookup "categories" bucket ->
  fst (usage_bucket env bucket_owner (JDict bucket) st)
  = fst (usage_bucket env bucket_owner (JDict bucket') st)
  /\ usage_dict (snd (usage_bucket env bucket_owner (JDict bucket) st))
     = usage_dict (snd (usage_bucket env bucket_owner (JDict bucket') st)).
Proof.
  intros Hn Hfalsy Hn' Hc.
  rewrite (@usage_bucket_named env bucket_owner bucket name st Hn).
  rewrite (@usage_bucket_named env bucket_owner bucket' (JStr "bucket_root") st Hn').
  rewrite Hfalsy. simpl negb. simpl py_truthy. cbv iota.
  simpl py_getitem. rewrite Hc.
  apply usage_only_usage_bucket_named.
  destruct (DEBUG env); reflexivity.
Qed.

Lemma unnamed_bucket_is_bucket_root_witness :
  let categories :=
    JList [JDict [("category", JStr "list_buckets"); ("ops", JInt 1);
                  ("successful_ops", JInt 1); ("bytes_sent", JInt 120);
                  ("bytes_received", JInt 0)]] in
  let unnamed := [("bucket", JStr EmptyString); ("categories", categories)] in
  let named := [("bucket", JStr "bucket_root"); ("categories", categories)] in
  fst (usage_bucket env_created (JStr "alice") (JDict unnamed) st_ready)
  = fst (usage_bucket env_created (JStr "alice") (JDict named) st_ready)
  /\ usage_dict (snd (usage_bucket env_created (JStr "alice") (JDict unnamed) st_ready))
     = usage_dict (snd (usage_bucket env_created (JStr "alice") (JDict named) st_ready)).
Proof.
  intros categories unnamed named.
  apply (@unnamed_bucket_is_bucket_root env_created (JStr "alice") unnamed named
           (JStr EmptyString) st_ready); reflexivity.
Defined.
